(** * The payment-failure dashboard callback [update_graph] of [app.py]

    A shallow embedding of the reactive callback of the Dash application:
    the three data frames loaded at start-up live in a heap of mutable
    objects, the callback is a computation in a state-and-exception monad
    over that heap, and the figure and the summary it returns are plain
    records and strings.  Floating-point columns are IEEE binary64 values
    (Rocq's primitive floats), dates are [datetime64[ns]] time stamps. *)

From Stdlib Require Import ZArith Floats Ascii String.
From stdpp Require Import base option strings list.

Open Scope Z_scope.

(** ** Time stamps

    pandas stores a parsed date column as [datetime64[ns]]: a signed count of
    nanoseconds since 1970-01-01T00:00:00. *)

Definition Timestamp := Z.

Definition ns_per_day : Z := 86400 * 1000000000.

(** Days since the epoch of a date of the proleptic Gregorian calendar. *)
Definition days_from_civil (y m d : Z) : Z :=
  let y' := if m <=? 2 then y - 1 else y in
  let era := y' / 400 in
  let yoe := y' - era * 400 in
  let mp := if m <=? 2 then m + 9 else m - 3 in
  let doy := (153 * mp + 2) / 5 + d - 1 in
  let doe := yoe * 365 + yoe / 4 - yoe / 100 + doy in
  era * 146097 + doe - 719468.

(** The time stamp of midnight of a calendar date, what a date without a time
    of day is parsed to. *)
Definition midnight (y m d : Z) : Timestamp := days_from_civil y m d * ns_per_day.

Definition is_leap (y : Z) : bool :=
  (y mod 4 =? 0) && (negb (y mod 100 =? 0) || (y mod 400 =? 0)).

Definition days_in_month (y m : Z) : Z :=
  if m =? 2 then (if is_leap y then 29 else 28)
  else if (m =? 4) || (m =? 6) || (m =? 9) || (m =? 11) then 30
  else 31.

Definition digit_of_ascii (a : ascii) : option Z :=
  let n := Z.of_nat (nat_of_ascii a) in
  if (48 <=? n) && (n <=? 57) then Some (n - 48) else None.

Definition number_of_digits (ds : list ascii) : option Z :=
  foldl (λ acc a, n ← acc; k ← digit_of_ascii a; Some (10 * n + k)) (Some 0) ds.

(** One instance of the string-to-time-stamp conversion: the ISO 8601 calendar
    dates [YYYY-MM-DD] that the date picker emits once a date is chosen. *)
Definition iso_to_datetime (s : string) : option Timestamp :=
  match String.list_ascii_of_string s with
  | [y1; y2; y3; y4; "-"%char; m1; m2; "-"%char; d1; d2] =>
      y ← number_of_digits [y1; y2; y3; y4];
      m ← number_of_digits [m1; m2];
      d ← number_of_digits [d1; d2];
      if (1 <=? m) && (m <=? 12) && (1 <=? d) && (d <=? days_in_month y m)
      then Some (midnight y m d) else None
  | _ => None
  end.

(** ** Python numbers and their formatting *)

(** Python's [int] to [float] conversion, rounding to nearest even. *)
Definition float_of_int (z : Z) : float :=
  SF2Prim (binary_normalize prec emax z 0 false).

(** True division [a / b] of two [int]s.  Python rounds the exact quotient
    once; for operands below [2^53], as row counts are, that is the binary64
    quotient of the converted operands. *)
Definition int_truediv (a b : Z) : float :=
  PrimFloat.div (float_of_int a) (float_of_int b).

(** The values [fail_pct] can hold: the [int] literal [0] or a [float]. *)
Inductive PyNum :=
| PyInt (z : Z)
| PyFloat (f : float).

Definition ascii_of_digit (d : Z) : ascii := ascii_of_nat (Z.to_nat (48 + d)).

Fixpoint digits_of_pos_aux (fuel : nat) (n : Z) (acc : list ascii) : list ascii :=
  match fuel with
  | O => acc
  | S fuel =>
      let acc := ascii_of_digit (n mod 10) :: acc in
      if n / 10 =? 0 then acc else digits_of_pos_aux fuel (n / 10) acc
  end.

(** The decimal digits of a natural number, most significant first. *)
Definition digits_of_nonneg (n : Z) : list ascii :=
  digits_of_pos_aux (S (Z.to_nat (Z.log2 n))) n [].

(** [str(z)], also what [f"{z}"] gives. *)
Definition str_int (z : Z) : string :=
  if z <? 0 then String "-" (string_of_list_ascii (digits_of_nonneg (- z)))
  else string_of_list_ascii (digits_of_nonneg z).

(** Digits grouped in threes from the right, for the [,] format option. *)
Fixpoint group_thousands (rev_digits : list ascii) (acc : list ascii) : list ascii :=
  match rev_digits with
  | a :: b :: c :: ((_ :: _) as rest) => group_thousands rest (","%char :: c :: b :: a :: acc)
  | _ => rev_append rev_digits acc
  end.

(** [f"{z:,}"]. *)
Definition format_comma (z : Z) : string :=
  let body := string_of_list_ascii (group_thousands (rev (digits_of_nonneg (Z.abs z))) []) in
  if z <? 0 then String "-" body else body.

(** [f"{x:.1f}"] on a float: the exact binary value rounded to one decimal,
    ties to even, as CPython's correctly rounded conversion does. *)
Definition format_1f_float (x : float) : string :=
  match Prim2SF x with
  | S754_nan => "nan"
  | S754_infinity s => if s then "-inf" else "inf"
  | S754_zero s => if s then "-0.0" else "0.0"
  | S754_finite s m e =>
      let num := 10 * Z.pos m * 2 ^ Z.max e 0 in
      let den := 2 ^ Z.max (- e) 0 in
      let q := num / den in
      let r := num mod den in
      let tenths :=
        if (den <? 2 * r) || ((2 * r =? den) && Z.odd q) then q + 1 else q in
      let body := str_int (tenths / 10) +:+ "." +:+ str_int (tenths mod 10) in
      if s then String "-" body else body
  end.

Definition format_1f (v : PyNum) : string :=
  match v with
  | PyInt z => format_1f_float (float_of_int z)
  | PyFloat f => format_1f_float f
  end.

(** ** The three datasets

    Rows of the data frames read from [latam_failure_pct.csv],
    [latam_ml_anomaly.csv] and [arima_forecast.csv]. *)

Record ObservedPoint := mkObserved {
  obs_date : Timestamp;
  obs_failure_pct : float
}.

Record AnomalyPoint := mkAnomaly {
  anom_date : Timestamp;
  anom_failure_pct : float;
  ml_anomaly : bool
}.

Record ForecastPoint := mkForecast {
  fc_date : Timestamp;
  forecast : float;
  upper : float;
  lower : float
}.

(** A data frame object: its rows, under one of the three schemas. *)
Inductive DataFrame :=
| ObservedFrame (rows : list ObservedPoint)
| AnomalyFrame (rows : list AnomalyPoint)
| ForecastFrame (rows : list ForecastPoint).

(** Column access [df[name]]; a column the frame does not have is a
    [KeyError], here [None]. *)
Definition col_date (df : DataFrame) : list Timestamp :=
  match df with
  | ObservedFrame rows => obs_date <$> rows
  | AnomalyFrame rows => anom_date <$> rows
  | ForecastFrame rows => fc_date <$> rows
  end.

Definition col_failure_pct (df : DataFrame) : option (list float) :=
  match df with
  | ObservedFrame rows => Some (obs_failure_pct <$> rows)
  | AnomalyFrame rows => Some (anom_failure_pct <$> rows)
  | ForecastFrame _ => None
  end.

Definition col_ml_anomaly (df : DataFrame) : option (list bool) :=
  match df with
  | AnomalyFrame rows => Some (ml_anomaly <$> rows)
  | _ => None
  end.

Definition col_forecast (df : DataFrame) : option (list float) :=
  match df with ForecastFrame rows => Some (forecast <$> rows) | _ => None end.

Definition col_upper (df : DataFrame) : option (list float) :=
  match df with ForecastFrame rows => Some (upper <$> rows) | _ => None end.

Definition col_lower (df : DataFrame) : option (list float) :=
  match df with ForecastFrame rows => Some (lower <$> rows) | _ => None end.

Definition frame_len (df : DataFrame) : nat :=
  match df with
  | ObservedFrame rows => length rows
  | AnomalyFrame rows => length rows
  | ForecastFrame rows => length rows
  end.

(** The rows a boolean mask keeps, in their order. *)
Fixpoint select {A} (mask : list bool) (rows : list A) : list A :=
  match mask, rows with
  | b :: mask, r :: rows => if b then r :: select mask rows else select mask rows
  | _, _ => []
  end.

(** [df[mask]] builds a new frame; a mask of another length is an error. *)
Definition frame_select (mask : list bool) (df : DataFrame) : option DataFrame :=
  if decide (length mask = frame_len df) then
    Some match df with
         | ObservedFrame rows => ObservedFrame (select mask rows)
         | AnomalyFrame rows => AnomalyFrame (select mask rows)
         | ForecastFrame rows => ForecastFrame (select mask rows)
         end
  else None.

Definition scale_observed (c : float) (b : bool) (p : ObservedPoint) : ObservedPoint :=
  if b then mkObserved (obs_date p) (obs_failure_pct p * c)%float else p.

Definition scale_anomaly (c : float) (b : bool) (p : AnomalyPoint) : AnomalyPoint :=
  if b then mkAnomaly (anom_date p) (anom_failure_pct p * c)%float (ml_anomaly p) else p.

(** The frame after [df.loc[mask, 'failure_pct'] *= c]. *)
Definition frame_imul_failure_pct (mask : list bool) (c : float) (df : DataFrame)
  : option DataFrame :=
  if decide (length mask = frame_len df) then
    match df with
    | ObservedFrame rows => Some (ObservedFrame (zip_with (scale_observed c) mask rows))
    | AnomalyFrame rows => Some (AnomalyFrame (zip_with (scale_anomaly c) mask rows))
    | ForecastFrame _ => None
    end
  else None.

(** Element-wise operations on columns; each builds a new series. *)
Definition Series_ge (s : list Timestamp) (t : Timestamp) : list bool :=
  (λ d, bool_decide (t ≤ d)) <$> s.

Definition Series_le (s : list Timestamp) (t : Timestamp) : list bool :=
  (λ d, bool_decide (d ≤ t)) <$> s.

Definition Series_gt (s : list float) (c : float) : list bool :=
  (λ v, PrimFloat.ltb c v) <$> s.

Definition Series_and (a b : list bool) : list bool := zip_with andb a b.

(** ** The object heap and the monad of the callback

    Data frames are mutable objects.  A heap holds them, a variable holds a
    location, [copy] and [df[mask]] allocate, [df.loc[...] *= c] writes in
    place.  A computation takes a heap and raises ([None]) or returns a value
    and the heap it leaves. *)

Abbreviation loc := nat (only parsing).
Abbreviation Heap := (list DataFrame) (only parsing).
Definition Py (A : Type) : Type := Heap → option (A * Heap).

#[global] Instance Py_ret : MRet Py := λ A a h, Some (a, h).
#[global] Instance Py_bind : MBind Py :=
  λ A B k m h, match m h with Some (a, h') => k a h' | None => None end.

Definition raise {A} : Py A := λ _, None.

Definition of_option {A} (o : option A) : Py A :=
  λ h, match o with Some a => Some (a, h) | None => None end.

Definition new_frame (df : DataFrame) : Py loc := λ h, Some (length h, h ++ [df]).

Definition get_frame (l : loc) : Py DataFrame :=
  λ h, match h !! l with Some df => Some (df, h) | None => None end.

Definition set_frame (l : loc) (df : DataFrame) : Py unit :=
  λ h, match h !! l with Some _ => Some (tt, <[l := df]> h) | None => None end.

(** [df.copy()]: a new object with the same rows. *)
Definition DataFrame_copy (l : loc) : Py loc := df ← get_frame l; new_frame df.

(** [df[mask]]. *)
Definition getitem_mask (l : loc) (mask : list bool) : Py loc :=
  df ← get_frame l; df' ← of_option (frame_select mask df); new_frame df'.

(** [df.loc[mask, 'failure_pct'] *= c]. *)
Definition loc_imul_failure_pct (l : loc) (mask : list bool) (c : float) : Py unit :=
  df ← get_frame l; df' ← of_option (frame_imul_failure_pct mask c df); set_frame l df'.

Definition getitem_date (l : loc) : Py (list Timestamp) :=
  df ← get_frame l; mret (col_date df).

Definition getitem_failure_pct (l : loc) : Py (list float) :=
  df ← get_frame l; of_option (col_failure_pct df).

Definition getitem_ml_anomaly (l : loc) : Py (list bool) :=
  df ← get_frame l; of_option (col_ml_anomaly df).

Definition getitem_forecast (l : loc) : Py (list float) :=
  df ← get_frame l; of_option (col_forecast df).

Definition getitem_upper (l : loc) : Py (list float) :=
  df ← get_frame l; of_option (col_upper df).

Definition getitem_lower (l : loc) : Py (list float) :=
  df ← get_frame l; of_option (col_lower df).

(** [len(df)]. *)
Definition len (l : loc) : Py Z := df ← get_frame l; mret (Z.of_nat (frame_len df)).

(** The module-level variables [latam_df], [ml_df] and [arima_df]: the first
    three objects, allocated by the three [read_csv] calls. *)
Definition latam_df : loc := 0%nat.
Definition ml_df : loc := 1%nat.
Definition arima_df : loc := 2%nat.

(** The heap once the module is loaded. *)
Definition read_csv (observed : list ObservedPoint) (anomalies : list AnomalyPoint)
    (forecasts : list ForecastPoint) : Heap :=
  [ObservedFrame observed; AnomalyFrame anomalies; ForecastFrame forecasts].

(** ** Figures and HTML *)

Module go.
Record Line := mkLine {
  color : option string;
  dash : option string;
  width : option Z
}.

Record Marker := mkMarker {
  marker_color : string;
  size : Z;
  symbol : string
}.

(** A [go.Scatter] trace with the keyword arguments the callback uses. *)
Record Scatter := mkScatter {
  x : list Timestamp;
  y : list float;
  mode : option string;
  name : option string;
  line : option Line;
  marker : option Marker;
  fill : option string;
  fillcolor : option string;
  showlegend : option bool
}.

Record Layout := mkLayout {
  title : option string;
  xaxis_title : option string;
  yaxis_title : option string;
  template : option string;
  hovermode : option string
}.

Record Figure := mkFigure {
  data : list Scatter;
  layout : Layout
}.

(** [go.Figure()]. *)
Definition new_Figure : Figure := mkFigure [] (mkLayout None None None None None).

(** [fig.add_trace(t)] appends to the figure's traces. *)
Definition add_trace (t : Scatter) (fig : Figure) : Figure :=
  mkFigure (data fig ++ [t]) (layout fig).

Definition update_layout (l : Layout) (fig : Figure) : Figure :=
  mkFigure (data fig) l.
End go.

Module html.
Inductive Element :=
| H4 (children : string)
| P (children : string)
| Div (children : list Element).
End html.

(** ** The callback *)

Section Callback.

(** pandas converts a string compared with a [datetime64] column to a time
    stamp, and raises on a string it cannot read as a date. *)
Variable to_datetime : string → option Timestamp.

(** [s >= d] and [s <= d] for a string [d]. *)
Definition Series_ge_str (s : list Timestamp) (d : string) : Py (list bool) :=
  t ← of_option (to_datetime d); mret (Series_ge s t).

Definition Series_le_str (s : list Timestamp) (d : string) : Py (list bool) :=
  t ← of_option (to_datetime d); mret (Series_le s t).

(** [(df['date'] >= lo) & (df['date'] <= hi)]. *)
Definition date_between (df : loc) (lo hi : string) : Py (list bool) :=
  dates ← getitem_date df;
  ge ← Series_ge_str dates lo;
  dates ← getitem_date df;
  le ← Series_le_str dates hi;
  mret (Series_and ge le).

(** Lines 77-78, "Slice base data". *)
Definition slice_base_data (start_date end_date : string) : Py loc :=
  df ← DataFrame_copy latam_df;
  mask ← date_between df start_date end_date;
  getitem_mask df mask.

(** Lines 81-83, "Apply Black Friday spike". *)
Definition apply_spike (event_toggle : list string) (df : loc) : Py unit :=
  if decide ("bf" ∈ event_toggle) then
    spike_mask ← date_between df "2025-01-25" "2025-01-28";
    loc_imul_failure_pct df spike_mask 2.5
  else mret tt.

(** Lines 87-90: the trace of the observed series. *)
Definition observed_trace (df : loc) : Py go.Scatter :=
  xs ← getitem_date df;
  ys ← getitem_failure_pct df;
  mret (go.mkScatter xs ys (Some "lines+markers") (Some "Failure %")
          (Some (go.mkLine (Some "gray") None None)) None None None None).

(** Lines 92-97: the anomaly markers. *)
Definition add_anomalies (anomaly_method start_date end_date : string)
    (fig : go.Figure) : Py go.Figure :=
  if decide (anomaly_method = "ml") then
    flags ← getitem_ml_anomaly ml_df;
    dates ← getitem_date ml_df;
    ge ← Series_ge_str dates start_date;
    dates ← getitem_date ml_df;
    le ← Series_le_str dates end_date;
    ml_anomalies ← getitem_mask ml_df (Series_and (Series_and flags ge) le);
    xs ← getitem_date ml_anomalies;
    ys ← getitem_failure_pct ml_anomalies;
    mret (go.add_trace
            (go.mkScatter xs ys (Some "markers") (Some "ML Anomalies") None
               (Some (go.mkMarker "red" 10 "x")) None None None) fig)
  else mret fig.

(** Lines 99-111: the forecast line and its confidence band. *)
Definition add_forecast (forecast_choice start_date end_date : string)
    (fig : go.Figure) : Py go.Figure :=
  if decide (forecast_choice = "arima") then
    mask ← date_between arima_df start_date end_date;
    arima_overlay ← getitem_mask arima_df mask;
    xs ← getitem_date arima_overlay;
    ys ← getitem_forecast arima_overlay;
    let fig :=
      go.add_trace
        (go.mkScatter xs ys (Some "lines") (Some "ARIMA Forecast")
           (Some (go.mkLine (Some "green") (Some "dash") None)) None None None None)
        fig in
    xs ← getitem_date arima_overlay;
    ys ← getitem_upper arima_overlay;
    let fig :=
      go.add_trace
        (go.mkScatter xs ys None None (Some (go.mkLine None None (Some 0))) None
           None None (Some false))
        fig in
    xs ← getitem_date arima_overlay;
    ys ← getitem_lower arima_overlay;
    let fig :=
      go.add_trace
        (go.mkScatter xs ys None (Some "Forecast CI")
           (Some (go.mkLine None None (Some 0))) None
           (Some "tonexty") (Some "rgba(0,200,0,0.1)") (Some true))
        fig in
    mret fig
  else mret fig.

Definition figure_layout : go.Layout :=
  go.mkLayout (Some "📈 LATAM Payment Failures with Forecast & Anomalies")
    (Some "Date") (Some "Failure %") (Some "plotly_white") (Some "x unified").

(** Lines 86-119, "Build figure". *)
Definition build_figure (forecast_choice anomaly_method start_date end_date : string)
    (df : loc) : Py go.Figure :=
  let fig := go.new_Figure in
  t ← observed_trace df;
  let fig := go.add_trace t fig in
  fig ← add_anomalies anomaly_method start_date end_date fig;
  fig ← add_forecast forecast_choice start_date end_date fig;
  mret (go.update_layout figure_layout fig).

(** Line 125. *)
Definition fail_pct_of (fail_count user_count : Z) : PyNum :=
  if 0 <? user_count
  then PyFloat (int_truediv fail_count user_count * 100)%float
  else PyInt 0.

(** Lines 127-134. *)
Definition summary_div (event_toggle : list string) (start_date end_date : string)
    (user_count fail_count : Z) (fail_pct : PyNum) : html.Element :=
  html.Div [
    html.H4 "📊 User & Business Impact Summary (Simulated):";
    html.P ("• Date Range: " +:+ start_date +:+ " to " +:+ end_date);
    html.P ("• Total Records: " +:+ str_int user_count);
    html.P ("• High Failure Days (>3%): " +:+ str_int fail_count +:+ " ("
              +:+ format_1f fail_pct +:+ "%)");
    html.P ("• Simulated Missed Revenue: $" +:+ format_comma (fail_count * 5700));
    html.P (if decide ("bf" ∉ event_toggle)
            then "• Root cause: Deployment A41 + Gateway v3-latam-02 (injected)"
            else "• Spike simulated due to Black Friday")
  ].

(** Lines 122-134, "Simulated product impact summary". *)
Definition impact_summary (event_toggle : list string) (start_date end_date : string)
    (df : loc) : Py html.Element :=
  pcts ← getitem_failure_pct df;
  failure_days ← getitem_mask df (Series_gt pcts 3);
  user_count ← len df;
  fail_count ← len failure_days;
  let fail_pct := fail_pct_of fail_count user_count in
  mret (summary_div event_toggle start_date end_date user_count fail_count fail_pct).

(** [update_graph], lines 75-136. *)
Definition update_graph (forecast_choice anomaly_method : string)
    (event_toggle : list string) (start_date end_date : string)
  : Py (go.Figure * html.Element) :=
  df ← slice_base_data start_date end_date;
  apply_spike event_toggle df;;
  fig ← build_figure forecast_choice anomaly_method start_date end_date df;
  summary ← impact_summary event_toggle start_date end_date df;
  mret (fig, summary).

End Callback.

(** ** Vocabulary of the statements *)

(** The heap holds the three datasets under the module's variables. *)
Definition loaded (h : Heap) (observed : list ObservedPoint)
    (anomalies : list AnomalyPoint) (forecasts : list ForecastPoint) : Prop :=
  h !! latam_df = Some (ObservedFrame observed) ∧
  h !! ml_df = Some (AnomalyFrame anomalies) ∧
  h !! arima_df = Some (ForecastFrame forecasts).

(** A time stamp within inclusive bounds. *)
Definition between (lo hi t : Timestamp) : Prop := lo ≤ t ≤ hi.

#[global] Instance between_dec lo hi t : Decision (between lo hi t).
Proof. unfold between. apply _. Defined.

(** The spike window, 2025-01-25 to 2025-01-28. *)
Definition spike_lo : Timestamp := midnight 2025 1 25.
Definition spike_hi : Timestamp := midnight 2025 1 28.

(** A failure rate above the threshold of the summary. *)
Definition high_failure (p : ObservedPoint) : Prop :=
  PrimFloat.ltb 3 (obs_failure_pct p) = true.

#[global] Instance high_failure_dec p : Decision (high_failure p).
Proof. unfold high_failure. apply _. Defined.

(** A flagged anomaly within the active range. *)
Definition flagged_between (lo hi : Timestamp) (p : AnomalyPoint) : Prop :=
  ml_anomaly p = true ∧ between lo hi (anom_date p).

#[global] Instance flagged_between_dec lo hi p : Decision (flagged_between lo hi p).
Proof. unfold flagged_between. apply _. Defined.

(** The anomaly overlay of a figure: its traces named "ML Anomalies". *)
Definition ml_overlay (fig : go.Figure) : list go.Scatter :=
  filter (λ t, go.name t = Some "ML Anomalies") (go.data fig).

(** The points a trace plots. *)
Definition points (t : go.Scatter) : list (Timestamp * float) := zip (go.x t) (go.y t).

(** The series after the spike step, as a map over its points. *)
Definition spike_point (p : ObservedPoint) : ObservedPoint :=
  scale_observed 2.5 (bool_decide (between spike_lo spike_hi (obs_date p))) p.

Definition spiked_series (event_toggle : list string) (rows : list ObservedPoint)
  : list ObservedPoint :=
  if decide ("bf" ∈ event_toggle) then spike_point <$> rows else rows.

(** The layers of the figure, over the rows they plot. *)
Definition observed_layer (rows : list ObservedPoint) : go.Scatter :=
  go.mkScatter (obs_date <$> rows) (obs_failure_pct <$> rows) (Some "lines+markers")
    (Some "Failure %") (Some (go.mkLine (Some "gray") None None)) None None None None.

Definition anomaly_layer (rows : list AnomalyPoint) : go.Scatter :=
  go.mkScatter (anom_date <$> rows) (anom_failure_pct <$> rows) (Some "markers")
    (Some "ML Anomalies") None (Some (go.mkMarker "red" 10 "x")) None None None.

Definition central_layer (rows : list ForecastPoint) : go.Scatter :=
  go.mkScatter (fc_date <$> rows) (forecast <$> rows) (Some "lines") (Some "ARIMA Forecast")
    (Some (go.mkLine (Some "green") (Some "dash") None)) None None None None.

Definition upper_layer (rows : list ForecastPoint) : go.Scatter :=
  go.mkScatter (fc_date <$> rows) (upper <$> rows) None None
    (Some (go.mkLine None None (Some 0))) None None None (Some false).

Definition lower_layer (rows : list ForecastPoint) : go.Scatter :=
  go.mkScatter (fc_date <$> rows) (lower <$> rows) None (Some "Forecast CI")
    (Some (go.mkLine None None (Some 0))) None (Some "tonexty")
    (Some "rgba(0,200,0,0.1)") (Some true).

Definition anomaly_layers (anomaly_method : string) (lo hi : Timestamp)
    (anomalies : list AnomalyPoint) : list go.Scatter :=
  if decide (anomaly_method = "ml")
  then [anomaly_layer (filter (flagged_between lo hi) anomalies)] else [].

Definition forecast_layers (forecast_choice : string) (lo hi : Timestamp)
    (forecasts : list ForecastPoint) : list go.Scatter :=
  if decide (forecast_choice = "arima")
  then let rows := filter (λ p, between lo hi (fc_date p)) forecasts in
       [central_layer rows; upper_layer rows; lower_layer rows]
  else [].

(** The summary over the series it is computed from. *)
Definition summary_of (event_toggle : list string) (start_date end_date : string)
    (rows : list ObservedPoint) : html.Element :=
  let n := Z.of_nat (length rows) in
  let k := Z.of_nat (length (filter high_failure rows)) in
  summary_div event_toggle start_date end_date n k (fail_pct_of k n).

(** The observed series of the scenarios: 1 to 31 January 2025 at a constant
    failure rate of 2.0. *)
Definition january_2025 : list ObservedPoint :=
  (λ d, mkObserved (midnight 2025 1 d) 2) <$> seqZ 1 31.

(** A small data store, to run the callback on. *)
Definition sample_observed : list ObservedPoint :=
  [mkObserved (midnight 2025 1 24) 2; mkObserved (midnight 2025 1 25) 2;
   mkObserved (midnight 2025 1 29) 4].

Definition sample_anomalies : list AnomalyPoint :=
  [mkAnomaly (midnight 2025 1 25) 2 true; mkAnomaly (midnight 2025 2 25) 7 true;
   mkAnomaly (midnight 2025 1 26) 2 false].

Definition sample_forecasts : list ForecastPoint :=
  [mkForecast (midnight 2025 1 26) 2 3 1; mkForecast (midnight 2025 2 1) 2 3 1].

Definition sample_heap : Heap :=
  read_csv sample_observed sample_anomalies sample_forecasts.

(** ** The date picker of the layout *)

(** [s.min()] and [s.max()] of a date column; on an empty column pandas
    gives [NaT], here [None]. *)
Definition Series_min (s : list Timestamp) : option Timestamp :=
  match s with
  | [] => None
  | t :: s => Some (foldl Z.min t s)
  end.

Definition Series_max (s : list Timestamp) : option Timestamp :=
  match s with
  | [] => None
  | t :: s => Some (foldl Z.max t s)
  end.

Module dcc.
Record DatePickerRange := mkDatePickerRange {
  min_date_allowed : option Timestamp;
  max_date_allowed : option Timestamp;
  start_date : option Timestamp;
  end_date : option Timestamp
}.
End dcc.

(** Lines 51-57: the date picker of the layout, its bounds and its initial
    range read off [latam_df['date']]. *)
Definition date_picker : Py dcc.DatePickerRange :=
  dates ← getitem_date latam_df;
  let min_date_allowed := Series_min dates in
  dates ← getitem_date latam_df;
  let max_date_allowed := Series_max dates in
  dates ← getitem_date latam_df;
  let start_date := Series_min dates in
  dates ← getitem_date latam_df;
  let end_date := Series_max dates in
  mret (dcc.mkDatePickerRange min_date_allowed max_date_allowed start_date end_date).

(** ** Masks and selections *)

Section Select.
Context {A : Type}.

Lemma select_fmap (b : A → bool) (P : A → Prop) `{!∀ r, Decision (P r)}
    (rows : list A) :
  (∀ r, b r = true ↔ P r) → select (b <$> rows) rows = filter P rows.
Proof.
  intros Hb. induction rows as [|r rows IH]; [done|].
  cbn [fmap list_fmap select]. rewrite filter_cons, IH.
  destruct (b r) eqn:Hr, (decide (P r)) as [HP|HP]; try done.
  - apply Hb in Hr. done.
  - apply Hb in HP. congruence.
Qed.

Lemma Series_and_fmap (f g : A → bool) (rows : list A) :
  Series_and (f <$> rows) (g <$> rows) = (λ r, f r && g r) <$> rows.
Proof.
  unfold Series_and. induction rows as [|r rows IH]; [done|].
  cbn. by rewrite IH.
Qed.

Lemma zip_with_fmap_diag {B} (f : bool → A → B) (b : A → bool) (rows : list A) :
  zip_with f (b <$> rows) rows = (λ r, f (b r) r) <$> rows.
Proof. induction rows as [|r rows IH]; [done|]. cbn. by rewrite IH. Qed.
End Select.

Lemma bool_decide_intro (b : bool) (P : Prop) `{!Decision P} :
  (b = true ↔ P) → b = bool_decide P.
Proof.
  intros Hb. destruct b; symmetry.
  - apply bool_decide_eq_true_2. by apply Hb.
  - apply bool_decide_eq_false_2. intros HP. by apply Hb in HP.
Qed.

Lemma Series_between (A : Type) (date : A → Timestamp) (lo hi : Timestamp)
    (rows : list A) :
  Series_and (Series_ge (date <$> rows) lo) (Series_le (date <$> rows) hi)
  = (λ r, bool_decide (between lo hi (date r))) <$> rows.
Proof.
  unfold Series_ge, Series_le. rewrite <- !list_fmap_compose, Series_and_fmap.
  apply list_fmap_ext. intros _ r _. cbn. apply bool_decide_intro.
  by rewrite andb_true_iff, !bool_decide_eq_true.
Qed.

Lemma select_between (A : Type) (date : A → Timestamp) (lo hi : Timestamp)
    (rows : list A) :
  select (Series_and (Series_ge (date <$> rows) lo) (Series_le (date <$> rows) hi)) rows
  = filter (λ r, between lo hi (date r)) rows.
Proof.
  rewrite Series_between. apply select_fmap. intros r. apply bool_decide_eq_true.
Qed.

(** An inverted range selects nothing. *)
Lemma filter_between_inverted (A : Type) (date : A → Timestamp) (lo hi : Timestamp)
    (rows : list A) :
  hi < lo → filter (λ r, between lo hi (date r)) rows = [].
Proof.
  intros Hinv. induction rows as [|r rows IH]; [done|].
  rewrite filter_cons_False; [done|]. unfold between. lia.
Qed.

(** ** Running the heap operations *)

Lemma bind_run {A B} (m : Py A) (k : A → Py B) (h h' : Heap) (a : A) :
  m h = Some (a, h') → (m ≫= k) h = k a h'.
Proof. intros Hm. unfold mbind, Py_bind. by rewrite Hm. Qed.

Lemma of_option_run {A} (o : option A) (a : A) (h : Heap) :
  o = Some a → of_option o h = Some (a, h).
Proof. by intros ->. Qed.

Lemma get_frame_run (l : loc) (df : DataFrame) (h : Heap) :
  h !! l = Some df → get_frame l h = Some (df, h).
Proof. intros Hl. unfold get_frame. by rewrite Hl. Qed.

Lemma DataFrame_copy_run (l : loc) (df : DataFrame) (h : Heap) :
  h !! l = Some df → DataFrame_copy l h = Some (length h, h ++ [df]).
Proof.
  intros Hl. unfold DataFrame_copy. by rewrite (bind_run _ _ _ _ _ (get_frame_run _ _ _ Hl)).
Qed.

Lemma getitem_mask_run (l : loc) (mask : list bool) (df df' : DataFrame) (h : Heap) :
  h !! l = Some df → frame_select mask df = Some df' →
  getitem_mask l mask h = Some (length h, h ++ [df']).
Proof.
  intros Hl Hsel. unfold getitem_mask.
  rewrite (bind_run _ _ _ _ _ (get_frame_run _ _ _ Hl)).
  by rewrite (bind_run _ _ _ _ _ (of_option_run _ _ _ Hsel)).
Qed.

Lemma loc_imul_failure_pct_run (l : loc) (mask : list bool) (c : float)
    (df df' : DataFrame) (h : Heap) :
  h !! l = Some df → frame_imul_failure_pct mask c df = Some df' →
  loc_imul_failure_pct l mask c h = Some (tt, <[l := df']> h).
Proof.
  intros Hl Hmul. unfold loc_imul_failure_pct.
  rewrite (bind_run _ _ _ _ _ (get_frame_run _ _ _ Hl)).
  rewrite (bind_run _ _ _ _ _ (of_option_run _ _ _ Hmul)).
  unfold set_frame. by rewrite Hl.
Qed.

Lemma getitem_date_run (l : loc) (df : DataFrame) (h : Heap) :
  h !! l = Some df → getitem_date l h = Some (col_date df, h).
Proof.
  intros Hl. unfold getitem_date. by rewrite (bind_run _ _ _ _ _ (get_frame_run _ _ _ Hl)).
Qed.

Lemma len_run (l : loc) (df : DataFrame) (h : Heap) :
  h !! l = Some df → len l h = Some (Z.of_nat (frame_len df), h).
Proof.
  intros Hl. unfold len. by rewrite (bind_run _ _ _ _ _ (get_frame_run _ _ _ Hl)).
Qed.

Lemma getitem_col_run {A} (col : DataFrame → option A) (l : loc) (df : DataFrame)
    (a : A) (h : Heap) :
  h !! l = Some df → col df = Some a →
  (get_frame l ≫= λ df, of_option (col df)) h = Some (a, h).
Proof.
  intros Hl Hc. rewrite (bind_run _ _ _ _ _ (get_frame_run _ _ _ Hl)).
  by apply of_option_run.
Qed.

(** What allocation leaves in place, and where the new object is. *)
Lemma lookup_snoc_old (h : Heap) (df df' : DataFrame) (l : loc) :
  h !! l = Some df → (h ++ [df']) !! l = Some df.
Proof. intros Hl. rewrite lookup_app_l; [done|]. by eapply lookup_lt_Some. Qed.

Lemma lookup_snoc_new (h : Heap) (df : DataFrame) :
  (h ++ [df]) !! length h = Some df.
Proof. by apply list_lookup_middle. Qed.

Lemma insert_snoc_new (h : Heap) (df df' : DataFrame) :
  <[length h := df']> (h ++ [df]) = h ++ [df'].
Proof. rewrite insert_app_r_alt by lia. by rewrite Nat.sub_diag. Qed.

Lemma frame_select_observed (lo hi : Timestamp) (rows : list ObservedPoint) :
  frame_select
    (Series_and (Series_ge (col_date (ObservedFrame rows)) lo)
       (Series_le (col_date (ObservedFrame rows)) hi))
    (ObservedFrame rows)
  = Some (ObservedFrame (filter (λ p, between lo hi (obs_date p)) rows)).
Proof.
  unfold frame_select. cbn [col_date frame_len].
  rewrite decide_True; [by rewrite select_between|].
  by rewrite Series_between, length_fmap.
Qed.

Lemma frame_select_forecast (lo hi : Timestamp) (rows : list ForecastPoint) :
  frame_select
    (Series_and (Series_ge (col_date (ForecastFrame rows)) lo)
       (Series_le (col_date (ForecastFrame rows)) hi))
    (ForecastFrame rows)
  = Some (ForecastFrame (filter (λ p, between lo hi (fc_date p)) rows)).
Proof.
  unfold frame_select. cbn [col_date frame_len].
  rewrite decide_True; [by rewrite select_between|].
  by rewrite Series_between, length_fmap.
Qed.

Lemma anomaly_mask (lo hi : Timestamp) (rows : list AnomalyPoint) :
  Series_and (Series_and (ml_anomaly <$> rows) (Series_ge (anom_date <$> rows) lo))
    (Series_le (anom_date <$> rows) hi)
  = (λ p, bool_decide (flagged_between lo hi p)) <$> rows.
Proof.
  unfold Series_ge, Series_le. rewrite <- !list_fmap_compose, !Series_and_fmap.
  apply list_fmap_ext. intros _ p _. cbn. apply bool_decide_intro.
  rewrite !andb_true_iff, !bool_decide_eq_true. unfold flagged_between, between.
  tauto.
Qed.

Lemma frame_select_anomaly (lo hi : Timestamp) (rows : list AnomalyPoint) :
  frame_select
    (Series_and (Series_and (ml_anomaly <$> rows) (Series_ge (anom_date <$> rows) lo))
       (Series_le (anom_date <$> rows) hi))
    (AnomalyFrame rows)
  = Some (AnomalyFrame (filter (flagged_between lo hi) rows)).
Proof.
  unfold frame_select. cbn [frame_len]. rewrite anomaly_mask.
  rewrite decide_True by (by rewrite length_fmap).
  do 2 f_equal. apply select_fmap. intros p. apply bool_decide_eq_true.
Qed.

Lemma frame_select_high_failure (rows : list ObservedPoint) :
  frame_select (Series_gt (obs_failure_pct <$> rows) 3) (ObservedFrame rows)
  = Some (ObservedFrame (filter high_failure rows)).
Proof.
  unfold frame_select, Series_gt. cbn [frame_len]. rewrite <- list_fmap_compose.
  rewrite decide_True by (by rewrite length_fmap).
  do 2 f_equal. by apply select_fmap.
Qed.

Lemma frame_imul_spike (rows : list ObservedPoint) :
  frame_imul_failure_pct
    (Series_and (Series_ge (col_date (ObservedFrame rows)) spike_lo)
       (Series_le (col_date (ObservedFrame rows)) spike_hi))
    2.5 (ObservedFrame rows)
  = Some (ObservedFrame (spike_point <$> rows)).
Proof.
  unfold frame_imul_failure_pct. cbn [col_date frame_len]. rewrite Series_between.
  rewrite decide_True by (by rewrite length_fmap).
  by rewrite zip_with_fmap_diag.
Qed.

Lemma lookup_snoc2_new (h : Heap) (df df' : DataFrame) :
  (h ++ [df; df']) !! S (length h) = Some df'.
Proof. rewrite (lookup_app_r h) by lia. by replace (S (length h) - length h)%nat with 1%nat by lia. Qed.

Lemma insert_snoc2_new (h : Heap) (df df' df'' : DataFrame) :
  <[S (length h) := df'']> (h ++ [df; df']) = h ++ [df; df''].
Proof.
  rewrite insert_app_r_alt by lia.
  by replace (S (length h) - length h)%nat with 1%nat by lia.
Qed.

(** ** Reading the figure *)

Lemma zip_fmap_diag {A B C} (f : A → B) (g : A → C) (l : list A) :
  zip (f <$> l) (g <$> l) = (λ a, (f a, g a)) <$> l.
Proof. induction l as [|a l IH]; [done|]. cbn. by rewrite IH. Qed.

Lemma points_observed_layer (rows : list ObservedPoint) :
  points (observed_layer rows) = (λ p, (obs_date p, obs_failure_pct p)) <$> rows.
Proof. apply zip_fmap_diag. Qed.

Lemma points_anomaly_layer (rows : list AnomalyPoint) :
  points (anomaly_layer rows) = (λ p, (anom_date p, anom_failure_pct p)) <$> rows.
Proof. apply zip_fmap_diag. Qed.

(** Only the anomaly layer carries the name the overlay is read by. *)
Lemma ml_overlay_layers (rows : list ObservedPoint) (anomaly_method forecast_choice : string)
    (lo hi : Timestamp) (anomalies : list AnomalyPoint) (forecasts : list ForecastPoint)
    (lay : go.Layout) :
  ml_overlay
    (go.mkFigure
       (observed_layer rows
          :: anomaly_layers anomaly_method lo hi anomalies
          ++ forecast_layers forecast_choice lo hi forecasts) lay)
  = anomaly_layers anomaly_method lo hi anomalies.
Proof.
  unfold ml_overlay. cbn [go.data].
  rewrite filter_cons_False by done. rewrite filter_app.
  replace (filter (λ t, go.name t = Some "ML Anomalies")
             (forecast_layers forecast_choice lo hi forecasts))
    with (@nil go.Scatter).
  2:{ unfold forecast_layers. destruct (decide (forecast_choice = "arima")); [|done].
      cbn zeta. by rewrite !filter_cons_False by done. }
  rewrite app_nil_r. unfold anomaly_layers.
  destruct (decide (anomaly_method = "ml")); [|done].
  by rewrite filter_cons_True by done.
Qed.

(** ** Running the blocks of the callback *)

Section Properties.

Variable to_datetime : string → option Timestamp.

Lemma Series_ge_str_run (s : list Timestamp) (d : string) (t : Timestamp) (h : Heap) :
  to_datetime d = Some t → Series_ge_str to_datetime s d h = Some (Series_ge s t, h).
Proof.
  intros Hd. unfold Series_ge_str.
  by rewrite (bind_run _ _ _ _ _ (of_option_run _ _ _ Hd)).
Qed.

Lemma Series_le_str_run (s : list Timestamp) (d : string) (t : Timestamp) (h : Heap) :
  to_datetime d = Some t → Series_le_str to_datetime s d h = Some (Series_le s t, h).
Proof.
  intros Hd. unfold Series_le_str.
  by rewrite (bind_run _ _ _ _ _ (of_option_run _ _ _ Hd)).
Qed.

Lemma date_between_run (df : loc) (lo hi : string) (s e : Timestamp)
    (frame : DataFrame) (h : Heap) :
  h !! df = Some frame → to_datetime lo = Some s → to_datetime hi = Some e →
  date_between to_datetime df lo hi h
  = Some (Series_and (Series_ge (col_date frame) s) (Series_le (col_date frame) e), h).
Proof.
  intros Hdf Hlo Hhi. unfold date_between.
  rewrite (bind_run _ _ _ _ _ (getitem_date_run _ _ _ Hdf)).
  rewrite (bind_run _ _ _ _ _ (Series_ge_str_run _ _ _ _ Hlo)).
  rewrite (bind_run _ _ _ _ _ (getitem_date_run _ _ _ Hdf)).
  by rewrite (bind_run _ _ _ _ _ (Series_le_str_run _ _ _ _ Hhi)).
Qed.

(** Slicing allocates the copy and the selection and touches nothing else. *)
Lemma slice_base_data_run (start_date end_date : string) (s e : Timestamp)
    (observed : list ObservedPoint) (h : Heap) :
  h !! latam_df = Some (ObservedFrame observed) →
  to_datetime start_date = Some s → to_datetime end_date = Some e →
  slice_base_data to_datetime start_date end_date h
  = Some (S (length h),
          h ++ [ObservedFrame observed;
                ObservedFrame (filter (λ p, between s e (obs_date p)) observed)]).
Proof.
  intros Hobs Hs He. unfold slice_base_data.
  rewrite (bind_run _ _ _ _ _ (DataFrame_copy_run _ _ _ Hobs)).
  rewrite (bind_run _ _ _ _ _
             (date_between_run _ _ _ _ _ _ _ (lookup_snoc_new _ _) Hs He)).
  rewrite (getitem_mask_run _ _ _ _ _ (lookup_snoc_new _ _)
             (frame_select_observed _ _ _)).
  rewrite length_app, <- app_assoc. cbn. do 3 f_equal. lia.
Qed.

(** The literals of the spike window read as the midnights they name. *)
Hypothesis to_datetime_spike_lo : to_datetime "2025-01-25" = Some spike_lo.
Hypothesis to_datetime_spike_hi : to_datetime "2025-01-28" = Some spike_hi.

(** The spike step writes the frame it is given, in place. *)
Lemma apply_spike_run (event_toggle : list string) (df : loc)
    (rows : list ObservedPoint) (h : Heap) :
  h !! df = Some (ObservedFrame rows) →
  apply_spike to_datetime event_toggle df h
  = Some (tt, <[df := ObservedFrame (spiked_series event_toggle rows)]> h).
Proof.
  intros Hdf. unfold apply_spike, spiked_series.
  destruct (decide ("bf" ∈ event_toggle)).
  - rewrite (bind_run _ _ _ _ _
               (date_between_run _ _ _ _ _ _ _ Hdf to_datetime_spike_lo
                  to_datetime_spike_hi)).
    apply (loc_imul_failure_pct_run _ _ _ _ _ _ Hdf), frame_imul_spike.
  - by rewrite list_insert_id.
Qed.

Lemma observed_trace_run (df : loc) (rows : list ObservedPoint) (h : Heap) :
  h !! df = Some (ObservedFrame rows) →
  observed_trace df h = Some (observed_layer rows, h).
Proof.
  intros Hdf. unfold observed_trace.
  rewrite (bind_run _ _ _ _ _ (getitem_date_run _ _ _ Hdf)).
  unfold getitem_failure_pct.
  by rewrite (bind_run _ _ _ _ _
                (getitem_col_run col_failure_pct _ _ _ _ Hdf eq_refl)).
Qed.

Lemma add_anomalies_run (anomaly_method start_date end_date : string)
    (s e : Timestamp) (anomalies : list AnomalyPoint) (fig : go.Figure) (h : Heap) :
  h !! ml_df = Some (AnomalyFrame anomalies) →
  to_datetime start_date = Some s → to_datetime end_date = Some e →
  ∃ tmp, add_anomalies to_datetime anomaly_method start_date end_date fig h
         = Some (go.mkFigure (go.data fig ++ anomaly_layers anomaly_method s e anomalies)
                   (go.layout fig),
                 h ++ tmp).
Proof.
  intros Hml Hs He. unfold add_anomalies, anomaly_layers.
  destruct (decide (anomaly_method = "ml")).
  - exists [AnomalyFrame (filter (flagged_between s e) anomalies)].
    unfold getitem_ml_anomaly.
    rewrite (bind_run _ _ _ _ _ (getitem_col_run col_ml_anomaly _ _ _ _ Hml eq_refl)).
    rewrite (bind_run _ _ _ _ _ (getitem_date_run _ _ _ Hml)).
    rewrite (bind_run _ _ _ _ _ (Series_ge_str_run _ _ _ _ Hs)).
    rewrite (bind_run _ _ _ _ _ (getitem_date_run _ _ _ Hml)).
    rewrite (bind_run _ _ _ _ _ (Series_le_str_run _ _ _ _ He)).
    rewrite (bind_run _ _ _ _ _
               (getitem_mask_run _ _ _ _ _ Hml (frame_select_anomaly _ _ _))).
    pose proof (lookup_snoc_new h
      (AnomalyFrame (filter (flagged_between s e) anomalies))) as Hnew.
    rewrite (bind_run _ _ _ _ _ (getitem_date_run _ _ _ Hnew)).
    unfold getitem_failure_pct.
    by rewrite (bind_run _ _ _ _ _
                  (getitem_col_run col_failure_pct _ _ _ _ Hnew eq_refl)).
  - exists []. rewrite !app_nil_r. by destruct fig.
Qed.

Lemma add_forecast_run (forecast_choice start_date end_date : string)
    (s e : Timestamp) (forecasts : list ForecastPoint) (fig : go.Figure) (h : Heap) :
  h !! arima_df = Some (ForecastFrame forecasts) →
  to_datetime start_date = Some s → to_datetime end_date = Some e →
  ∃ tmp, add_forecast to_datetime forecast_choice start_date end_date fig h
         = Some (go.mkFigure (go.data fig ++ forecast_layers forecast_choice s e forecasts)
                   (go.layout fig),
                 h ++ tmp).
Proof.
  intros Hfc Hs He. unfold add_forecast, forecast_layers.
  destruct (decide (forecast_choice = "arima")).
  - exists [ForecastFrame (filter (λ p, between s e (fc_date p)) forecasts)].
    rewrite (bind_run _ _ _ _ _ (date_between_run _ _ _ _ _ _ _ Hfc Hs He)).
    rewrite (bind_run _ _ _ _ _
               (getitem_mask_run _ _ _ _ _ Hfc (frame_select_forecast _ _ _))).
    pose proof (lookup_snoc_new h
      (ForecastFrame (filter (λ p, between s e (fc_date p)) forecasts))) as Hnew.
    rewrite (bind_run _ _ _ _ _ (getitem_date_run _ _ _ Hnew)).
    unfold getitem_forecast, getitem_upper, getitem_lower.
    rewrite (bind_run _ _ _ _ _ (getitem_col_run col_forecast _ _ _ _ Hnew eq_refl)).
    rewrite (bind_run _ _ _ _ _ (getitem_date_run _ _ _ Hnew)).
    rewrite (bind_run _ _ _ _ _ (getitem_col_run col_upper _ _ _ _ Hnew eq_refl)).
    rewrite (bind_run _ _ _ _ _ (getitem_date_run _ _ _ Hnew)).
    rewrite (bind_run _ _ _ _ _ (getitem_col_run col_lower _ _ _ _ Hnew eq_refl)).
    unfold go.add_trace. cbn [go.data go.layout]. by rewrite <- !app_assoc.
  - exists []. rewrite !app_nil_r. by destruct fig.
Qed.

Lemma build_figure_run (forecast_choice anomaly_method start_date end_date : string)
    (s e : Timestamp) (df : loc) (rows : list ObservedPoint)
    (anomalies : list AnomalyPoint) (forecasts : list ForecastPoint) (h : Heap) :
  h !! df = Some (ObservedFrame rows) →
  h !! ml_df = Some (AnomalyFrame anomalies) →
  h !! arima_df = Some (ForecastFrame forecasts) →
  to_datetime start_date = Some s → to_datetime end_date = Some e →
  ∃ tmp, build_figure to_datetime forecast_choice anomaly_method start_date end_date df h
         = Some (go.mkFigure
                   (observed_layer rows
                      :: anomaly_layers anomaly_method s e anomalies
                      ++ forecast_layers forecast_choice s e forecasts)
                   figure_layout,
                 h ++ tmp).
Proof.
  intros Hdf Hml Hfc Hs He. unfold build_figure.
  rewrite (bind_run _ _ _ _ _ (observed_trace_run _ _ _ Hdf)).
  destruct (add_anomalies_run anomaly_method _ _ _ _ _
              (go.add_trace (observed_layer rows) go.new_Figure) _ Hml Hs He)
    as [tmp1 Hrun1].
  rewrite (bind_run _ _ _ _ _ Hrun1).
  destruct (add_forecast_run forecast_choice _ _ _ _ _
              (go.mkFigure
                 (go.data (go.add_trace (observed_layer rows) go.new_Figure)
                    ++ anomaly_layers anomaly_method s e anomalies)
                 (go.layout (go.add_trace (observed_layer rows) go.new_Figure)))
              (h ++ tmp1) (lookup_app_l_Some _ _ _ _ Hfc) Hs He)
    as [tmp2 Hrun2].
  rewrite (bind_run _ _ _ _ _ Hrun2).
  exists (tmp1 ++ tmp2). by rewrite app_assoc.
Qed.

Lemma impact_summary_run (event_toggle : list string) (start_date end_date : string)
    (df : loc) (rows : list ObservedPoint) (h : Heap) :
  h !! df = Some (ObservedFrame rows) →
  impact_summary event_toggle start_date end_date df h
  = Some (summary_of event_toggle start_date end_date rows,
          h ++ [ObservedFrame (filter high_failure rows)]).
Proof.
  intros Hdf. unfold impact_summary, getitem_failure_pct.
  rewrite (bind_run _ _ _ _ _ (getitem_col_run col_failure_pct _ _ _ _ Hdf eq_refl)).
  rewrite (bind_run _ _ _ _ _
             (getitem_mask_run _ _ _ _ _ Hdf (frame_select_high_failure _))).
  rewrite (bind_run _ _ _ _ _ (len_run _ _ _ (lookup_snoc_old _ _ _ _ Hdf))).
  by rewrite (bind_run _ _ _ _ _ (len_run _ _ _ (lookup_snoc_new _ _))).
Qed.

(** The whole callback: what it returns, and that it only allocates. *)
Lemma update_graph_run (forecast_choice anomaly_method : string)
    (event_toggle : list string) (start_date end_date : string) (s e : Timestamp)
    (observed : list ObservedPoint) (anomalies : list AnomalyPoint)
    (forecasts : list ForecastPoint) (h : Heap) :
  loaded h observed anomalies forecasts →
  to_datetime start_date = Some s → to_datetime end_date = Some e →
  let rows :=
    spiked_series event_toggle (filter (λ p, between s e (obs_date p)) observed) in
  ∃ tmp,
    update_graph to_datetime forecast_choice anomaly_method event_toggle
      start_date end_date h
    = Some ((go.mkFigure
               (observed_layer rows
                  :: anomaly_layers anomaly_method s e anomalies
                  ++ forecast_layers forecast_choice s e forecasts)
               figure_layout,
             summary_of event_toggle start_date end_date rows),
            h ++ tmp).
Proof.
  intros (Hobs & Hml & Hfc) Hs He rows. unfold update_graph.
  rewrite (bind_run _ _ _ _ _ (slice_base_data_run _ _ _ _ _ _ Hobs Hs He)).
  rewrite (bind_run _ _ _ _ _ (apply_spike_run event_toggle _ _ _ (lookup_snoc2_new _ _ _))).
  rewrite insert_snoc2_new. fold rows.
  destruct (build_figure_run forecast_choice anomaly_method _ _ _ _ _ _ _ _ _
              (lookup_snoc2_new h (ObservedFrame observed) (ObservedFrame rows))
              (lookup_app_l_Some _ _ _ _ Hml) (lookup_app_l_Some _ _ _ _ Hfc) Hs He)
    as [tmp Hfig].
  rewrite (bind_run _ _ _ _ _ Hfig).
  rewrite (bind_run _ _ _ _ _
             (impact_summary_run event_toggle _ _ _ _ _
                (lookup_app_l_Some _ _ _ _ (lookup_snoc2_new _ _ _)))).
  eexists. by rewrite <- !app_assoc.
Qed.

(** ** The claims *)

(** C1, spike simulator: on any observed frame, with "bf" selected every
    point whose date is within 2025-01-25 .. 2025-01-28 has its failure
    rate multiplied by 2.5 and every other point is left as it is; the
    dates and the number of points do not change; without "bf" the frame
    is left as it is. *)
Theorem spike_simulator (event_toggle : list string) (df : loc)
    (rows : list ObservedPoint) (h : Heap) :
  h !! df = Some (ObservedFrame rows) →
  ∃ rows',
    apply_spike to_datetime event_toggle df h
    = Some (tt, <[df := ObservedFrame rows']> h) ∧
    length rows' = length rows ∧
    (∀ i p, rows !! i = Some p →
       ∃ p', rows' !! i = Some p' ∧
             obs_date p' = obs_date p ∧
             ("bf" ∈ event_toggle → between spike_lo spike_hi (obs_date p) →
              obs_failure_pct p' = (obs_failure_pct p * 2.5)%float) ∧
             ("bf" ∈ event_toggle → ¬ between spike_lo spike_hi (obs_date p) →
              p' = p)) ∧
    ("bf" ∉ event_toggle → rows' = rows).
Proof.
  intros Hdf. exists (spiked_series event_toggle rows).
  split; [by apply apply_spike_run|]. unfold spiked_series.
  destruct (decide ("bf" ∈ event_toggle)) as [Hbf|Hbf].
  - split; [by rewrite length_fmap|]. split; [|done].
    intros i p Hp. exists (spike_point p).
    split; [by rewrite list_lookup_fmap, Hp|].
    unfold spike_point, scale_observed.
    split; [by case_bool_decide|].
    split; intros _ Hwin; [by rewrite bool_decide_eq_true_2|
                           by rewrite bool_decide_eq_false_2].
  - split; [done|]. split; [|done].
    intros i p Hp. exists p. by repeat split.
Qed.

(** C2, impact summary: on any observed frame the summary shows the number
    of rows n, the number k of rows with a failure rate above 3, the
    percentage k/n*100 (the integer 0 when n = 0), the revenue k * 5700, and
    the root-cause line without "bf" or the spike line with it. *)
Theorem impact_summary_reports (event_toggle : list string)
    (start_date end_date : string) (df : loc) (rows : list ObservedPoint) (h : Heap) :
  h !! df = Some (ObservedFrame rows) →
  let n := Z.of_nat (length rows) in
  let k := Z.of_nat (length (filter high_failure rows)) in
  let pct := if decide (n = 0) then PyInt 0
             else PyFloat (int_truediv k n * 100)%float in
  ∃ h',
    impact_summary event_toggle start_date end_date df h
    = Some (html.Div [
              html.H4 "📊 User & Business Impact Summary (Simulated):";
              html.P ("• Date Range: " +:+ start_date +:+ " to " +:+ end_date);
              html.P ("• Total Records: " +:+ str_int n);
              html.P ("• High Failure Days (>3%): " +:+ str_int k +:+ " ("
                        +:+ format_1f pct +:+ "%)");
              html.P ("• Simulated Missed Revenue: $" +:+ format_comma (k * 5700));
              html.P (if decide ("bf" ∈ event_toggle)
                      then "• Spike simulated due to Black Friday"
                      else "• Root cause: Deployment A41 + Gateway v3-latam-02 (injected)")
            ], h').
Proof.
  intros Hdf n k pct. eexists. rewrite (impact_summary_run _ _ _ _ _ _ Hdf).
  unfold summary_of, summary_div, fail_pct_of. fold n k.
  replace (if 0 <? n then PyFloat (int_truediv k n * 100)%float else PyInt 0)
    with pct.
  2:{ unfold pct. destruct (decide (n = 0)) as [->|Hn]; [done|].
      by rewrite (proj2 (Z.ltb_lt 0 n)) by lia. }
  by destruct (decide ("bf" ∈ event_toggle)), (decide ("bf" ∉ event_toggle)).
Qed.

(** C3, range filter: slicing returns a new frame whose rows are exactly the
    observed rows dated within the inclusive bounds, in their order; with
    inverted bounds that frame is empty, and nothing is raised. *)
Theorem range_filter (start_date end_date : string) (s e : Timestamp)
    (observed : list ObservedPoint) (h : Heap) :
  h !! latam_df = Some (ObservedFrame observed) →
  to_datetime start_date = Some s → to_datetime end_date = Some e →
  ∃ df h' rows,
    slice_base_data to_datetime start_date end_date h = Some (df, h') ∧
    h' !! df = Some (ObservedFrame rows) ∧
    rows = filter (λ p, s ≤ obs_date p ≤ e) observed ∧
    rows `sublist_of` observed ∧
    (∀ p, p ∈ rows ↔ p ∈ observed ∧ s ≤ obs_date p ≤ e) ∧
    (e < s → rows = []).
Proof.
  intros Hobs Hs He.
  exists (S (length h)), (h ++ [ObservedFrame observed;
    ObservedFrame (filter (λ p, between s e (obs_date p)) observed)]),
    (filter (λ p, between s e (obs_date p)) observed).
  split; [by apply slice_base_data_run|].
  split; [apply lookup_snoc2_new|].
  split; [done|]. split; [apply sublist_filter|].
  split; [|apply filter_between_inverted].
  intros p. rewrite list_elem_of_filter. unfold between. tauto.
Qed.

(** C4, empty selection: when no observed row is dated within the bounds,
    the callback returns normally and the summary shows 0 records, 0
    high-failure days and 0.0 percent; the percentage is the integer 0 of
    the guarded branch, no division takes place. *)
Theorem empty_selection_summary (forecast_choice anomaly_method : string)
    (event_toggle : list string) (start_date end_date : string) (s e : Timestamp)
    (observed : list ObservedPoint) (anomalies : list AnomalyPoint)
    (forecasts : list ForecastPoint) (h : Heap) :
  loaded h observed anomalies forecasts →
  to_datetime start_date = Some s → to_datetime end_date = Some e →
  filter (λ p, s ≤ obs_date p ≤ e) observed = [] →
  fail_pct_of 0 0 = PyInt 0 ∧
  ∃ fig h',
    update_graph to_datetime forecast_choice anomaly_method event_toggle
      start_date end_date h
    = Some ((fig,
             html.Div [
               html.H4 "📊 User & Business Impact Summary (Simulated):";
               html.P ("• Date Range: " +:+ start_date +:+ " to " +:+ end_date);
               html.P "• Total Records: 0";
               html.P "• High Failure Days (>3%): 0 (0.0%)";
               html.P "• Simulated Missed Revenue: $0";
               html.P (if decide ("bf" ∈ event_toggle)
                       then "• Spike simulated due to Black Friday"
                       else "• Root cause: Deployment A41 + Gateway v3-latam-02 (injected)")
             ]), h').
Proof.
  intros Hl Hs He Hempty. split; [done|].
  destruct (update_graph_run forecast_choice anomaly_method event_toggle _ _ _ _ _ _ _ _
              Hl Hs He) as [tmp Hrun].
  do 2 eexists. rewrite Hrun. do 2 f_equal. f_equal.
  unfold between. rewrite Hempty.
  replace (spiked_series event_toggle []) with (@nil ObservedPoint)
    by (unfold spiked_series; by destruct (decide ("bf" ∈ event_toggle))).
  unfold summary_of, summary_div. cbn [length filter list_filter].
  by destruct (decide ("bf" ∈ event_toggle)), (decide ("bf" ∉ event_toggle)).
Qed.

(** C5, anomaly overlay selector: with the method "ml" the overlay is one
    trace plotting exactly the anomaly rows that are flagged and dated within
    the bounds, in their order; with any other method, "none" among them,
    the figure has no anomaly trace whatever the flags are. *)
Theorem anomaly_overlay_selector (forecast_choice anomaly_method : string)
    (event_toggle : list string) (start_date end_date : string) (s e : Timestamp)
    (observed : list ObservedPoint) (anomalies : list AnomalyPoint)
    (forecasts : list ForecastPoint) (h : Heap) :
  loaded h observed anomalies forecasts →
  to_datetime start_date = Some s → to_datetime end_date = Some e →
  ∃ fig summary h',
    update_graph to_datetime forecast_choice anomaly_method event_toggle
      start_date end_date h = Some ((fig, summary), h') ∧
    (anomaly_method = "ml" →
     ∃ t, ml_overlay fig = [t] ∧
          points t
          = (λ p, (anom_date p, anom_failure_pct p))
              <$> filter (λ p, ml_anomaly p = true ∧ s ≤ anom_date p ≤ e) anomalies) ∧
    (anomaly_method ≠ "ml" → ml_overlay fig = []).
Proof.
  intros Hl Hs He.
  destruct (update_graph_run forecast_choice anomaly_method event_toggle _ _ _ _ _ _ _ _
              Hl Hs He) as [tmp Hrun].
  do 3 eexists. split; [exact Hrun|].
  rewrite ml_overlay_layers. unfold anomaly_layers.
  split; intros Hm; [|by rewrite decide_False].
  rewrite decide_True by done. eexists. split; [done|].
  apply points_anomaly_layer.
Qed.

(** C6, forecast overlay selector: with the overlay "arima" the figure ends
    with three layers over the forecast rows dated within the bounds: the
    forecast line, then the upper bound, then the lower bound, which alone
    carries the fill "tonexty" and so comes right after the upper bound; with
    any other choice the figure has the observed and anomaly traces only. *)
Theorem forecast_overlay_selector (forecast_choice anomaly_method : string)
    (event_toggle : list string) (start_date end_date : string) (s e : Timestamp)
    (observed : list ObservedPoint) (anomalies : list AnomalyPoint)
    (forecasts : list ForecastPoint) (h : Heap) :
  loaded h observed anomalies forecasts →
  to_datetime start_date = Some s → to_datetime end_date = Some e →
  ∃ fig summary h' first,
    update_graph to_datetime forecast_choice anomaly_method event_toggle
      start_date end_date h = Some ((fig, summary), h') ∧
    go.name first = Some "Failure %" ∧
    (forecast_choice = "arima" →
     ∃ central up low,
       go.data fig = first :: ml_overlay fig ++ [central; up; low] ∧
       let rows := filter (λ p, s ≤ fc_date p ≤ e) forecasts in
       points central = (λ p, (fc_date p, forecast p)) <$> rows ∧
       points up = (λ p, (fc_date p, upper p)) <$> rows ∧
       points low = (λ p, (fc_date p, lower p)) <$> rows ∧
       go.fill central = None ∧ go.fill up = None ∧
       go.fill low = Some "tonexty" ∧
       ∃ i, go.data fig !! i = Some up ∧ go.data fig !! S i = Some low) ∧
    (forecast_choice ≠ "arima" → go.data fig = first :: ml_overlay fig).
Proof.
  intros Hl Hs He.
  destruct (update_graph_run forecast_choice anomaly_method event_toggle _ _ _ _ _ _ _ _
              Hl Hs He) as [tmp Hrun].
  eexists _, _, _, (observed_layer _). split; [exact Hrun|].
  rewrite ml_overlay_layers. cbn [go.data]. split; [done|].
  unfold forecast_layers.
  split; intros Hf; [|by rewrite decide_False, app_nil_r].
  rewrite decide_True by done. cbn zeta.
  do 3 eexists. split; [done|]. unfold between.
  split; [apply zip_fmap_diag|]. split; [apply zip_fmap_diag|].
  split; [apply zip_fmap_diag|]. do 3 (split; [done|]).
  exists (S (S (length (anomaly_layers anomaly_method s e anomalies)))).
  split.
  - change (?x :: ?l ++ ?k) with ([x] ++ l ++ k).
    rewrite lookup_app_r by (cbn; lia). rewrite lookup_app_r by (cbn; lia).
    by replace (_ - _ - _)%nat with 1%nat by (cbn; lia).
  - change (?x :: ?l ++ ?k) with ([x] ++ l ++ k).
    rewrite lookup_app_r by (cbn; lia). rewrite lookup_app_r by (cbn; lia).
    by replace (_ - _ - _)%nat with 2%nat by (cbn; lia).
Qed.

(** C7, the January scenario: over 1 to 31 January 2025 at a constant 2.0,
    with the whole month selected, the summary without "bf" shows 31
    records, 0 high-failure days, 0.0 percent and $0; with "bf" the four days
    25 to 28 January plot at 5.0, and the summary shows 4 high-failure days,
    12.9 percent, $22,800 and the spike line. *)
Theorem january_scenario (forecast_choice anomaly_method : string)
    (anomalies : list AnomalyPoint) (forecasts : list ForecastPoint) (h : Heap) :
  loaded h january_2025 anomalies forecasts →
  to_datetime "2025-01-01" = Some (midnight 2025 1 1) →
  to_datetime "2025-01-31" = Some (midnight 2025 1 31) →
  (∃ fig h' t rest,
     update_graph to_datetime forecast_choice anomaly_method []
       "2025-01-01" "2025-01-31" h
     = Some ((fig,
              html.Div [
                html.H4 "📊 User & Business Impact Summary (Simulated):";
                html.P "• Date Range: 2025-01-01 to 2025-01-31";
                html.P "• Total Records: 31";
                html.P "• High Failure Days (>3%): 0 (0.0%)";
                html.P "• Simulated Missed Revenue: $0";
                html.P "• Root cause: Deployment A41 + Gateway v3-latam-02 (injected)"
              ]), h') ∧
     go.data fig = t :: rest ∧
     points t = (λ d, (midnight 2025 1 d, 2%float)) <$> seqZ 1 31) ∧
  (∃ fig h' t rest,
     update_graph to_datetime forecast_choice anomaly_method ["bf"]
       "2025-01-01" "2025-01-31" h
     = Some ((fig,
              html.Div [
                html.H4 "📊 User & Business Impact Summary (Simulated):";
                html.P "• Date Range: 2025-01-01 to 2025-01-31";
                html.P "• Total Records: 31";
                html.P "• High Failure Days (>3%): 4 (12.9%)";
                html.P "• Simulated Missed Revenue: $22,800";
                html.P "• Spike simulated due to Black Friday"
              ]), h') ∧
     go.data fig = t :: rest ∧
     points t = (λ d, (midnight 2025 1 d,
                       if decide (25 ≤ d ≤ 28) then 5%float else 2%float))
                  <$> seqZ 1 31) ∧
  fail_pct_of 4 31 = PyFloat 0x1.9ce739ce739cep+3%float.
Proof.
  intros Hl Hs He. split; [|split; [|done]].
  - destruct (update_graph_run forecast_choice anomaly_method [] _ _ _ _ _ _ _ _
                Hl Hs He) as [tmp Hrun].
    cbn zeta in Hrun. eexists _, _, (observed_layer _), _. split; [|split].
    + rewrite Hrun. reflexivity.
    + done.
    + rewrite points_observed_layer. vm_compute. reflexivity.
  - destruct (update_graph_run forecast_choice anomaly_method ["bf"] _ _ _ _ _ _ _ _
                Hl Hs He) as [tmp Hrun].
    cbn zeta in Hrun. eexists _, _, (observed_layer _), _. split; [|split].
    + rewrite Hrun. reflexivity.
    + done.
    + rewrite points_observed_layer. vm_compute. reflexivity.
Qed.

(** C8, the data store is never written: the callback returns, every object
    that was in the heap is as it was (the copy and the selections are new
    objects, and the spike writes the selection), so the three datasets are
    still loaded; the observed trace plots the stored rates multiplied once
    within the spike window; and a further call on the heap it leaves
    returns the same figure and summary. *)
Theorem data_store_immutable (forecast_choice anomaly_method : string)
    (event_toggle : list string) (start_date end_date : string) (s e : Timestamp)
    (observed : list ObservedPoint) (anomalies : list AnomalyPoint)
    (forecasts : list ForecastPoint) (h : Heap) :
  loaded h observed anomalies forecasts →
  to_datetime start_date = Some s → to_datetime end_date = Some e →
  ∃ fig summary h',
    update_graph to_datetime forecast_choice anomaly_method event_toggle
      start_date end_date h = Some ((fig, summary), h') ∧
    (∀ l df, h !! l = Some df → h' !! l = Some df) ∧
    loaded h' observed anomalies forecasts ∧
    (∃ t rest,
       go.data fig = t :: rest ∧
       points t
       = (λ p, (obs_date p,
                if decide ("bf" ∈ event_toggle ∧ between spike_lo spike_hi (obs_date p))
                then (obs_failure_pct p * 2.5)%float else obs_failure_pct p))
           <$> filter (λ p, s ≤ obs_date p ≤ e) observed) ∧
    ∃ h'',
      update_graph to_datetime forecast_choice anomaly_method event_toggle
        start_date end_date h' = Some ((fig, summary), h'') ∧
      loaded h'' observed anomalies forecasts.
Proof.
  intros Hl Hs He.
  destruct (update_graph_run forecast_choice anomaly_method event_toggle _ _ _ _ _ _ _ _
              Hl Hs He) as [tmp Hrun].
  assert (Hl' : loaded (h ++ tmp) observed anomalies forecasts).
  { destruct Hl as (? & ? & ?). by repeat split; apply lookup_app_l_Some. }
  destruct (update_graph_run forecast_choice anomaly_method event_toggle _ _ _ _ _ _ _ _
              Hl' Hs He) as [tmp' Hrun'].
  do 3 eexists. split; [exact Hrun|].
  split; [intros l df; apply lookup_app_l_Some|]. split; [done|]. split.
  - do 2 eexists. split; [done|]. rewrite points_observed_layer.
    unfold spiked_series, between.
    destruct (decide ("bf" ∈ event_toggle)) as [Hbf|Hbf].
    + rewrite <- list_fmap_compose. apply list_fmap_ext. intros _ p _. cbn.
      unfold spike_point, scale_observed, between.
      destruct (decide (spike_lo ≤ obs_date p ≤ spike_hi)).
      * by rewrite bool_decide_eq_true_2, decide_True.
      * rewrite bool_decide_eq_false_2, decide_False; tauto.
    + apply list_fmap_ext. intros _ p _. rewrite decide_False; tauto.
  - exists ((h ++ tmp) ++ tmp'). split; [exact Hrun'|].
    destruct Hl' as (? & ? & ?). by repeat split; apply lookup_app_l_Some.
Qed.

(** C9, the summary does not depend on the overlays: two calls that differ
    only in the forecast overlay and the anomaly method return the same
    summary. *)
Theorem summary_noninterference (forecast_choice anomaly_method : string)
    (forecast_choice' anomaly_method' : string)
    (event_toggle : list string) (start_date end_date : string) (s e : Timestamp)
    (observed : list ObservedPoint) (anomalies : list AnomalyPoint)
    (forecasts : list ForecastPoint) (h : Heap) :
  loaded h observed anomalies forecasts →
  to_datetime start_date = Some s → to_datetime end_date = Some e →
  ∃ summary fig h1 fig' h2,
    update_graph to_datetime forecast_choice anomaly_method event_toggle
      start_date end_date h = Some ((fig, summary), h1) ∧
    update_graph to_datetime forecast_choice' anomaly_method' event_toggle
      start_date end_date h = Some ((fig', summary), h2).
Proof.
  intros Hl Hs He.
  destruct (update_graph_run forecast_choice anomaly_method event_toggle _ _ _ _ _ _ _ _
              Hl Hs He) as [tmp Hrun].
  destruct (update_graph_run forecast_choice' anomaly_method' event_toggle _ _ _ _ _ _ _ _
              Hl Hs He) as [tmp' Hrun'].
  do 5 eexists. split; [exact Hrun|exact Hrun'].
Qed.

(** C10, the anomaly overlay does not depend on the spike: two calls that
    differ only in the spike toggle return the same anomaly overlay, which
    with the method "ml" plots the failure rates of the anomaly dataset. *)
Theorem anomaly_overlay_spike_independent (forecast_choice anomaly_method : string)
    (event_toggle event_toggle' : list string) (start_date end_date : string)
    (s e : Timestamp) (observed : list ObservedPoint) (anomalies : list AnomalyPoint)
    (forecasts : list ForecastPoint) (h : Heap) :
  loaded h observed anomalies forecasts →
  to_datetime start_date = Some s → to_datetime end_date = Some e →
  ∃ fig summary h1 fig' summary' h2,
    update_graph to_datetime forecast_choice anomaly_method event_toggle
      start_date end_date h = Some ((fig, summary), h1) ∧
    update_graph to_datetime forecast_choice anomaly_method event_toggle'
      start_date end_date h = Some ((fig', summary'), h2) ∧
    ml_overlay fig = ml_overlay fig' ∧
    (anomaly_method = "ml" →
     ∃ t, ml_overlay fig = [t] ∧
          go.x t = anom_date
                     <$> filter (λ p, ml_anomaly p = true ∧ s ≤ anom_date p ≤ e) anomalies ∧
          go.y t = anom_failure_pct
                     <$> filter (λ p, ml_anomaly p = true ∧ s ≤ anom_date p ≤ e) anomalies).
Proof.
  intros Hl Hs He.
  destruct (update_graph_run forecast_choice anomaly_method event_toggle _ _ _ _ _ _ _ _
              Hl Hs He) as [tmp Hrun].
  destruct (update_graph_run forecast_choice anomaly_method event_toggle' _ _ _ _ _ _ _ _
              Hl Hs He) as [tmp' Hrun'].
  do 6 eexists. split; [exact Hrun|]. split; [exact Hrun'|].
  rewrite !ml_overlay_layers. split; [done|].
  intros Hm. unfold anomaly_layers. rewrite decide_True by done.
  eexists. by repeat split.
Qed.

End Properties.

(** ** The start-up heap and the ISO dates satisfy the hypotheses *)

(** After start-up the three datasets are loaded. *)
Lemma loaded_read_csv (observed : list ObservedPoint) (anomalies : list AnomalyPoint)
    (forecasts : list ForecastPoint) :
  loaded (read_csv observed anomalies forecasts) observed anomalies forecasts.
Proof. by repeat split. Qed.

(** For a row dated at midnight of a day of January 2025, the spike window is
    the days 25 to 28. *)
Lemma spike_window_january (d : Z) :
  between spike_lo spike_hi (midnight 2025 1 d) ↔ 25 ≤ d ≤ 28.
Proof.
  unfold between, spike_lo, spike_hi, midnight, days_from_civil, ns_per_day.
  cbn [Z.leb Z.compare Pos.compare Pos.compare_cont]. lia.
Qed.

(** For a row dated at midnight of any day, counted from the epoch, the spike
    window is the four days from 25 to 28 January 2025. *)
Lemma spike_window_days (n : Z) :
  between spike_lo spike_hi (n * ns_per_day)
  ↔ days_from_civil 2025 1 25 ≤ n ≤ days_from_civil 2025 1 25 + 3.
Proof.
  unfold between, spike_lo, spike_hi, midnight, ns_per_day.
  replace (days_from_civil 2025 1 28) with (days_from_civil 2025 1 25 + 3) by done.
  generalize (days_from_civil 2025 1 25). intros c. lia.
Qed.

Lemma spike_simulator_witness :
  (iso_to_datetime "2025-01-25" = Some spike_lo ∧
   iso_to_datetime "2025-01-28" = Some spike_hi ∧
   sample_heap !! latam_df = Some (ObservedFrame sample_observed)) ∧
  ∃ rows',
    apply_spike iso_to_datetime ["bf"] latam_df sample_heap
    = Some (tt, <[latam_df := ObservedFrame rows']> sample_heap) ∧
    length rows' = length sample_observed ∧
    (∀ i p, sample_observed !! i = Some p →
       ∃ p', rows' !! i = Some p' ∧
             obs_date p' = obs_date p ∧
             ("bf" ∈ ["bf"] → between spike_lo spike_hi (obs_date p) →
              obs_failure_pct p' = (obs_failure_pct p * 2.5)%float) ∧
             ("bf" ∈ ["bf"] → ¬ between spike_lo spike_hi (obs_date p) → p' = p)) ∧
    ("bf" ∉ ["bf"] → rows' = sample_observed).
Proof.
  split; [by repeat split|].
  apply (spike_simulator iso_to_datetime eq_refl eq_refl ["bf"] latam_df
           sample_observed sample_heap eq_refl).
Defined.

Lemma impact_summary_reports_witness :
  sample_heap !! latam_df = Some (ObservedFrame sample_observed) ∧
  ∃ h',
    impact_summary ["bf"] "2025-01-01" "2025-01-31" latam_df sample_heap
    = Some (html.Div [
              html.H4 "📊 User & Business Impact Summary (Simulated):";
              html.P "• Date Range: 2025-01-01 to 2025-01-31";
              html.P "• Total Records: 3";
              html.P "• High Failure Days (>3%): 1 (33.3%)";
              html.P "• Simulated Missed Revenue: $5,700";
              html.P "• Spike simulated due to Black Friday"
            ], h').
Proof.
  split; [reflexivity|].
  apply (impact_summary_reports ["bf"] "2025-01-01" "2025-01-31" latam_df
           sample_observed sample_heap eq_refl).
Defined.

Lemma range_filter_witness :
  (sample_heap !! latam_df = Some (ObservedFrame sample_observed) ∧
   iso_to_datetime "2025-01-25" = Some (midnight 2025 1 25) ∧
   iso_to_datetime "2025-01-31" = Some (midnight 2025 1 31)) ∧
  ∃ df h' rows,
    slice_base_data iso_to_datetime "2025-01-25" "2025-01-31" sample_heap
    = Some (df, h') ∧
    h' !! df = Some (ObservedFrame rows) ∧
    rows = filter (λ p, midnight 2025 1 25 ≤ obs_date p ≤ midnight 2025 1 31)
             sample_observed ∧
    rows `sublist_of` sample_observed ∧
    (∀ p, p ∈ rows
          ↔ p ∈ sample_observed ∧ midnight 2025 1 25 ≤ obs_date p ≤ midnight 2025 1 31) ∧
    (midnight 2025 1 31 < midnight 2025 1 25 → rows = []).
Proof.
  split; [by repeat split|].
  apply (range_filter iso_to_datetime "2025-01-25" "2025-01-31" _ _
           sample_observed sample_heap eq_refl eq_refl eq_refl).
Defined.

Lemma empty_selection_summary_witness :
  (iso_to_datetime "2025-01-25" = Some spike_lo ∧
   iso_to_datetime "2025-01-28" = Some spike_hi ∧
   loaded sample_heap sample_observed sample_anomalies sample_forecasts ∧
   iso_to_datetime "2025-02-01" = Some (midnight 2025 2 1) ∧
   iso_to_datetime "2025-01-01" = Some (midnight 2025 1 1) ∧
   filter (λ p, midnight 2025 2 1 ≤ obs_date p ≤ midnight 2025 1 1) sample_observed = []) ∧
  fail_pct_of 0 0 = PyInt 0 ∧
  ∃ fig h',
    update_graph iso_to_datetime "arima" "ml" ["bf"] "2025-02-01" "2025-01-01" sample_heap
    = Some ((fig,
             html.Div [
               html.H4 "📊 User & Business Impact Summary (Simulated):";
               html.P "• Date Range: 2025-02-01 to 2025-01-01";
               html.P "• Total Records: 0";
               html.P "• High Failure Days (>3%): 0 (0.0%)";
               html.P "• Simulated Missed Revenue: $0";
               html.P "• Spike simulated due to Black Friday"
             ]), h').
Proof.
  split; [by repeat split|].
  apply (empty_selection_summary iso_to_datetime eq_refl eq_refl "arima" "ml" ["bf"]
           "2025-02-01" "2025-01-01" _ _ sample_observed sample_anomalies
           sample_forecasts sample_heap (conj eq_refl (conj eq_refl eq_refl))
           eq_refl eq_refl eq_refl).
Defined.

Lemma anomaly_overlay_selector_witness :
  (iso_to_datetime "2025-01-25" = Some spike_lo ∧
   iso_to_datetime "2025-01-28" = Some spike_hi ∧
   loaded sample_heap sample_observed sample_anomalies sample_forecasts ∧
   iso_to_datetime "2025-01-01" = Some (midnight 2025 1 1) ∧
   iso_to_datetime "2025-01-31" = Some (midnight 2025 1 31)) ∧
  ∃ fig summary h',
    update_graph iso_to_datetime "arima" "ml" ["bf"] "2025-01-01" "2025-01-31" sample_heap
    = Some ((fig, summary), h') ∧
    ("ml" = "ml" →
     ∃ t, ml_overlay fig = [t] ∧
          points t
          = (λ p, (anom_date p, anom_failure_pct p))
              <$> filter (λ p, ml_anomaly p = true
                               ∧ midnight 2025 1 1 ≤ anom_date p ≤ midnight 2025 1 31)
                    sample_anomalies) ∧
    ("ml" ≠ "ml" → ml_overlay fig = []).
Proof.
  split; [by repeat split|].
  apply (anomaly_overlay_selector iso_to_datetime eq_refl eq_refl "arima" "ml" ["bf"]
           "2025-01-01" "2025-01-31" _ _ sample_observed sample_anomalies
           sample_forecasts sample_heap (conj eq_refl (conj eq_refl eq_refl))
           eq_refl eq_refl).
Defined.

Lemma forecast_overlay_selector_witness :
  (iso_to_datetime "2025-01-25" = Some spike_lo ∧
   iso_to_datetime "2025-01-28" = Some spike_hi ∧
   loaded sample_heap sample_observed sample_anomalies sample_forecasts ∧
   iso_to_datetime "2025-01-01" = Some (midnight 2025 1 1) ∧
   iso_to_datetime "2025-01-31" = Some (midnight 2025 1 31)) ∧
  ∃ fig summary h' first,
    update_graph iso_to_datetime "arima" "ml" [] "2025-01-01" "2025-01-31" sample_heap
    = Some ((fig, summary), h') ∧
    go.name first = Some "Failure %" ∧
    ("arima" = "arima" →
     ∃ central up low,
       go.data fig = first :: ml_overlay fig ++ [central; up; low] ∧
       points central
       = (λ p, (fc_date p, forecast p))
           <$> filter (λ p, midnight 2025 1 1 ≤ fc_date p ≤ midnight 2025 1 31)
                 sample_forecasts ∧
       points up
       = (λ p, (fc_date p, upper p))
           <$> filter (λ p, midnight 2025 1 1 ≤ fc_date p ≤ midnight 2025 1 31)
                 sample_forecasts ∧
       points low
       = (λ p, (fc_date p, lower p))
           <$> filter (λ p, midnight 2025 1 1 ≤ fc_date p ≤ midnight 2025 1 31)
                 sample_forecasts ∧
       go.fill central = None ∧ go.fill up = None ∧
       go.fill low = Some "tonexty" ∧
       ∃ i, go.data fig !! i = Some up ∧ go.data fig !! S i = Some low) ∧
    ("arima" ≠ "arima" → go.data fig = first :: ml_overlay fig).
Proof.
  split; [by repeat split|].
  apply (forecast_overlay_selector iso_to_datetime eq_refl eq_refl "arima" "ml" []
           "2025-01-01" "2025-01-31" _ _ sample_observed sample_anomalies
           sample_forecasts sample_heap (conj eq_refl (conj eq_refl eq_refl))
           eq_refl eq_refl).
Defined.

Lemma january_scenario_witness :
  (iso_to_datetime "2025-01-25" = Some spike_lo ∧
   iso_to_datetime "2025-01-28" = Some spike_hi ∧
   loaded (read_csv january_2025 sample_anomalies sample_forecasts)
     january_2025 sample_anomalies sample_forecasts ∧
   iso_to_datetime "2025-01-01" = Some (midnight 2025 1 1) ∧
   iso_to_datetime "2025-01-31" = Some (midnight 2025 1 31)) ∧
  ∃ fig h',
    update_graph iso_to_datetime "none" "none" ["bf"] "2025-01-01" "2025-01-31"
      (read_csv january_2025 sample_anomalies sample_forecasts)
    = Some ((fig,
             html.Div [
               html.H4 "📊 User & Business Impact Summary (Simulated):";
               html.P "• Date Range: 2025-01-01 to 2025-01-31";
               html.P "• Total Records: 31";
               html.P "• High Failure Days (>3%): 4 (12.9%)";
               html.P "• Simulated Missed Revenue: $22,800";
               html.P "• Spike simulated due to Black Friday"
             ]), h').
Proof.
  split; [by repeat split|].
  destruct (january_scenario iso_to_datetime eq_refl eq_refl "none" "none"
              sample_anomalies sample_forecasts
              (read_csv january_2025 sample_anomalies sample_forecasts)
              (conj eq_refl (conj eq_refl eq_refl)) eq_refl eq_refl)
    as (_ & (fig & h' & _ & _ & Hrun & _) & _).
  exists fig, h'. exact Hrun.
Defined.

Lemma data_store_immutable_witness :
  (iso_to_datetime "2025-01-25" = Some spike_lo ∧
   iso_to_datetime "2025-01-28" = Some spike_hi ∧
   loaded sample_heap sample_observed sample_anomalies sample_forecasts ∧
   iso_to_datetime "2025-01-01" = Some (midnight 2025 1 1) ∧
   iso_to_datetime "2025-01-31" = Some (midnight 2025 1 31)) ∧
  ∃ fig summary h',
    update_graph iso_to_datetime "arima" "ml" ["bf"] "2025-01-01" "2025-01-31" sample_heap
    = Some ((fig, summary), h') ∧
    (∀ l df, sample_heap !! l = Some df → h' !! l = Some df) ∧
    loaded h' sample_observed sample_anomalies sample_forecasts ∧
    (∃ t rest,
       go.data fig = t :: rest ∧
       points t
       = (λ p, (obs_date p,
                if decide ("bf" ∈ ["bf"] ∧ between spike_lo spike_hi (obs_date p))
                then (obs_failure_pct p * 2.5)%float else obs_failure_pct p))
           <$> filter (λ p, midnight 2025 1 1 ≤ obs_date p ≤ midnight 2025 1 31)
                 sample_observed) ∧
    ∃ h'',
      update_graph iso_to_datetime "arima" "ml" ["bf"] "2025-01-01" "2025-01-31" h'
      = Some ((fig, summary), h'') ∧
      loaded h'' sample_observed sample_anomalies sample_forecasts.
Proof.
  split; [by repeat split|].
  apply (data_store_immutable iso_to_datetime eq_refl eq_refl "arima" "ml" ["bf"]
           "2025-01-01" "2025-01-31" _ _ sample_observed sample_anomalies
           sample_forecasts sample_heap (conj eq_refl (conj eq_refl eq_refl))
           eq_refl eq_refl).
Defined.

Lemma summary_noninterference_witness :
  (iso_to_datetime "2025-01-25" = Some spike_lo ∧
   iso_to_datetime "2025-01-28" = Some spike_hi ∧
   loaded sample_heap sample_observed sample_anomalies sample_forecasts ∧
   iso_to_datetime "2025-01-01" = Some (midnight 2025 1 1) ∧
   iso_to_datetime "2025-01-31" = Some (midnight 2025 1 31)) ∧
  ∃ summary fig h1 fig' h2,
    update_graph iso_to_datetime "arima" "ml" ["bf"] "2025-01-01" "2025-01-31" sample_heap
    = Some ((fig, summary), h1) ∧
    update_graph iso_to_datetime "none" "none" ["bf"] "2025-01-01" "2025-01-31" sample_heap
    = Some ((fig', summary), h2).
Proof.
  split; [by repeat split|].
  apply (summary_noninterference iso_to_datetime eq_refl eq_refl "arima" "ml"
           "none" "none" ["bf"] "2025-01-01" "2025-01-31" _ _ sample_observed
           sample_anomalies sample_forecasts sample_heap
           (conj eq_refl (conj eq_refl eq_refl)) eq_refl eq_refl).
Defined.

Lemma anomaly_overlay_spike_independent_witness :
  (iso_to_datetime "2025-01-25" = Some spike_lo ∧
   iso_to_datetime "2025-01-28" = Some spike_hi ∧
   loaded sample_heap sample_observed sample_anomalies sample_forecasts ∧
   iso_to_datetime "2025-01-01" = Some (midnight 2025 1 1) ∧
   iso_to_datetime "2025-01-31" = Some (midnight 2025 1 31)) ∧
  ∃ fig summary h1 fig' summary' h2,
    update_graph iso_to_datetime "arima" "ml" ["bf"] "2025-01-01" "2025-01-31" sample_heap
    = Some ((fig, summary), h1) ∧
    update_graph iso_to_datetime "arima" "ml" [] "2025-01-01" "2025-01-31" sample_heap
    = Some ((fig', summary'), h2) ∧
    ml_overlay fig = ml_overlay fig' ∧
    ("ml" = "ml" →
     ∃ t, ml_overlay fig = [t] ∧
          go.x t = anom_date
                     <$> filter (λ p, ml_anomaly p = true
                                      ∧ midnight 2025 1 1 ≤ anom_date p ≤ midnight 2025 1 31)
                           sample_anomalies ∧
          go.y t = anom_failure_pct
                     <$> filter (λ p, ml_anomaly p = true
                                      ∧ midnight 2025 1 1 ≤ anom_date p ≤ midnight 2025 1 31)
                           sample_anomalies).
Proof.
  split; [by repeat split|].
  apply (anomaly_overlay_spike_independent iso_to_datetime eq_refl eq_refl "arima" "ml"
           ["bf"] [] "2025-01-01" "2025-01-31" _ _ sample_observed sample_anomalies
           sample_forecasts sample_heap (conj eq_refl (conj eq_refl eq_refl))
           eq_refl eq_refl).
Defined.

(** ** Further properties of the callback and of the date picker *)


Lemma filter_all {A} (P : A → Prop) `{!∀ a, Decision (P a)} (l : list A) :
  Forall P l → filter P l = l.
Proof.
  induction 1 as [|a l Ha _ IH]; [done|]. by rewrite filter_cons_True, IH.
Qed.

Lemma spiked_series_dates (event_toggle : list string) (rows : list ObservedPoint) :
  obs_date <$> spiked_series event_toggle rows = obs_date <$> rows.
Proof.
  unfold spiked_series. destruct (decide ("bf" ∈ event_toggle)); [|done].
  rewrite <- list_fmap_compose. apply list_fmap_ext. intros _ p _. cbn.
  unfold spike_point, scale_observed. by case_bool_decide.
Qed.

Lemma spiked_series_length (event_toggle : list string) (rows : list ObservedPoint) :
  length (spiked_series event_toggle rows) = length rows.
Proof.
  unfold spiked_series. destruct (decide ("bf" ∈ event_toggle)); [|done].
  apply length_fmap.
Qed.

(** Outside the window the spike step changes no row. *)
Lemma spiked_series_outside (event_toggle : list string) (rows : list ObservedPoint) :
  Forall (λ p, ¬ between spike_lo spike_hi (obs_date p)) rows →
  spiked_series event_toggle rows = rows.
Proof.
  intros Hout. unfold spiked_series. destruct (decide ("bf" ∈ event_toggle)); [|done].
  induction Hout as [|p rows Hp _ IH]; [done|]. cbn. rewrite IH. f_equal.
  unfold spike_point, scale_observed. by rewrite bool_decide_eq_false_2.
Qed.

Lemma spiked_series_congr (event_toggle event_toggle' : list string)
    (rows : list ObservedPoint) :
  ("bf" ∈ event_toggle ↔ "bf" ∈ event_toggle') →
  spiked_series event_toggle rows = spiked_series event_toggle' rows.
Proof.
  intros Hbf. unfold spiked_series.
  destruct (decide ("bf" ∈ event_toggle)), (decide ("bf" ∈ event_toggle')); tauto.
Qed.

Lemma summary_div_congr (event_toggle event_toggle' : list string)
    (start_date end_date : string) (n k : Z) (pct : PyNum) :
  ("bf" ∈ event_toggle ↔ "bf" ∈ event_toggle') →
  summary_div event_toggle start_date end_date n k pct
  = summary_div event_toggle' start_date end_date n k pct.
Proof.
  intros Hbf. unfold summary_div.
  destruct (decide ("bf" ∉ event_toggle)), (decide ("bf" ∉ event_toggle')); tauto.
Qed.

(** The rows above the threshold, counted on the column of their rates. *)
Lemma high_failure_count (rows : list ObservedPoint) :
  length (filter high_failure rows)
  = length (filter (λ v, PrimFloat.ltb 3 v = true) (obs_failure_pct <$> rows)).
Proof.
  induction rows as [|p rows IH]; [done|]. cbn [fmap list_fmap].
  rewrite !filter_cons. unfold high_failure at 1.
  destruct (decide (PrimFloat.ltb 3 (obs_failure_pct p) = true)); cbn; by rewrite IH.
Qed.

Lemma foldl_min_le (s : list Timestamp) (t : Timestamp) :
  foldl Z.min t s ≤ t ∧ Forall (λ d, foldl Z.min t s ≤ d) s.
Proof.
  revert t. induction s as [|d s IH]; intros t; cbn; [split; [lia | constructor]|].
  destruct (IH (Z.min t d)) as [Hle Hall]. split; [lia|].
  constructor; [lia | done].
Qed.

Lemma foldl_max_ge (s : list Timestamp) (t : Timestamp) :
  t ≤ foldl Z.max t s ∧ Forall (λ d, d ≤ foldl Z.max t s) s.
Proof.
  revert t. induction s as [|d s IH]; intros t; cbn; [split; [lia | constructor]|].
  destruct (IH (Z.max t d)) as [Hle Hall]. split; [lia|].
  constructor; [lia | done].
Qed.

Lemma foldl_min_elem (s : list Timestamp) (t : Timestamp) :
  foldl Z.min t s ∈ t :: s.
Proof.
  revert t. induction s as [|d s IH]; intros t; cbn; [by apply elem_of_cons; left|].
  specialize (IH (Z.min t d)). rewrite !elem_of_cons in *.
  destruct IH as [->|?]; [|tauto].
  destruct (Z.min_spec t d) as [[_ ->]|[_ ->]]; tauto.
Qed.

Lemma foldl_max_elem (s : list Timestamp) (t : Timestamp) :
  foldl Z.max t s ∈ t :: s.
Proof.
  revert t. induction s as [|d s IH]; intros t; cbn; [by apply elem_of_cons; left|].
  specialize (IH (Z.max t d)). rewrite !elem_of_cons in *.
  destruct IH as [->|?]; [|tauto].
  destruct (Z.max_spec t d) as [[_ ->]|[_ ->]]; tauto.
Qed.

Lemma Series_min_spec (s : list Timestamp) (lo : Timestamp) :
  Series_min s = Some lo → lo ∈ s ∧ Forall (λ d, lo ≤ d) s.
Proof.
  destruct s as [|t s]; [done|]. cbn. intros [= <-].
  split; [apply foldl_min_elem|].
  destruct (foldl_min_le s t). by constructor.
Qed.

Lemma Series_max_spec (s : list Timestamp) (hi : Timestamp) :
  Series_max s = Some hi → hi ∈ s ∧ Forall (λ d, d ≤ hi) s.
Proof.
  destruct s as [|t s]; [done|]. cbn. intros [= <-].
  split; [apply foldl_max_elem|].
  destruct (foldl_max_ge s t). by constructor.
Qed.

Lemma date_picker_run (observed : list ObservedPoint) (h : Heap) :
  h !! latam_df = Some (ObservedFrame observed) →
  date_picker h
  = Some (dcc.mkDatePickerRange
            (Series_min (obs_date <$> observed)) (Series_max (obs_date <$> observed))
            (Series_min (obs_date <$> observed)) (Series_max (obs_date <$> observed)),
          h).
Proof.
  intros Hobs. unfold date_picker.
  by rewrite !(bind_run _ _ _ _ _ (getitem_date_run _ _ _ Hobs)).
Qed.

Section Extras.

Variable to_datetime : string → option Timestamp.


Hypothesis to_datetime_spike_lo : to_datetime "2025-01-25" = Some spike_lo.
Hypothesis to_datetime_spike_hi : to_datetime "2025-01-28" = Some spike_hi.

Lemma build_figure_off_run (forecast_choice anomaly_method start_date end_date : string)
    (df : loc) (rows : list ObservedPoint) (h : Heap) :
  h !! df = Some (ObservedFrame rows) →
  anomaly_method ≠ "ml" → forecast_choice ≠ "arima" →
  build_figure to_datetime forecast_choice anomaly_method start_date end_date df h
  = Some (go.mkFigure [observed_layer rows] figure_layout, h).
Proof.
  intros Hdf Hm Hf. unfold build_figure.
  rewrite (bind_run _ _ _ _ _ (observed_trace_run _ _ _ Hdf)).
  unfold add_anomalies, add_forecast.
  destruct (decide (anomaly_method = "ml")); [done|].
  destruct (decide (forecast_choice = "arima")); [done|]. reflexivity.
Qed.

(** X2, overlays off: with the anomaly method other than "ml" and the forecast
    overlay other than "arima" the callback reads [latam_df] only.  On two heaps
    that agree on [latam_df], whatever they hold or lack at [ml_df] and
    [arima_df], it returns the same figure, of one trace, and the same
    summary. *)
Theorem overlays_off_ignore_datasets (forecast_choice anomaly_method : string)
    (event_toggle : list string) (start_date end_date : string) (s e : Timestamp)
    (observed : list ObservedPoint) (h1 h2 : Heap) :
  h1 !! latam_df = Some (ObservedFrame observed) →
  h2 !! latam_df = Some (ObservedFrame observed) →
  to_datetime start_date = Some s → to_datetime end_date = Some e →
  anomaly_method ≠ "ml" → forecast_choice ≠ "arima" →
  ∃ fig summary h1' h2' t,
    update_graph to_datetime forecast_choice anomaly_method event_toggle
      start_date end_date h1 = Some ((fig, summary), h1') ∧
    update_graph to_datetime forecast_choice anomaly_method event_toggle
      start_date end_date h2 = Some ((fig, summary), h2') ∧
    go.data fig = [t].
Proof.
  intros Hobs1 Hobs2 Hs He Hm Hf.
  assert (Hrun : ∀ h, h !! latam_df = Some (ObservedFrame observed) →
    ∃ h',
      update_graph to_datetime forecast_choice anomaly_method event_toggle
        start_date end_date h
      = Some ((go.mkFigure
                 [observed_layer
                    (spiked_series event_toggle
                       (filter (λ p, between s e (obs_date p)) observed))]
                 figure_layout,
               summary_of event_toggle start_date end_date
                 (spiked_series event_toggle
                    (filter (λ p, between s e (obs_date p)) observed))), h')).
  { intros h Hobs. unfold update_graph.
    rewrite (bind_run _ _ _ _ _ (slice_base_data_run _ _ _ _ _ _ _ Hobs Hs He)).
    rewrite (bind_run _ _ _ _ _
               (apply_spike_run _ to_datetime_spike_lo to_datetime_spike_hi
                  event_toggle _ _ _ (lookup_snoc2_new _ _ _))).
    rewrite insert_snoc2_new.
    rewrite (bind_run _ _ _ _ _
               (build_figure_off_run forecast_choice anomaly_method _ _ _ _ _
                  (lookup_snoc2_new _ _ _) Hm Hf)).
    rewrite (bind_run _ _ _ _ _
               (impact_summary_run event_toggle _ _ _ _ _ (lookup_snoc2_new _ _ _))).
    by eexists. }
  destruct (Hrun h1 Hobs1) as [h1' Hrun1]. destruct (Hrun h2 Hobs2) as [h2' Hrun2].
  by eexists _, _, h1', h2', _.
Qed.

(** X3, a range clear of the spike window: when the selected range ends
    before 2025-01-25 or starts after 2025-01-28, selecting "bf" changes
    neither the figure nor the counts and the percentage of the summary; only
    the narrative line follows the toggle. *)
Theorem spike_outside_range_invisible (forecast_choice anomaly_method : string)
    (event_toggle event_toggle' : list string) (start_date end_date : string)
    (s e : Timestamp) (observed : list ObservedPoint) (anomalies : list AnomalyPoint)
    (forecasts : list ForecastPoint) (h : Heap) :
  loaded h observed anomalies forecasts →
  to_datetime start_date = Some s → to_datetime end_date = Some e →
  e < spike_lo ∨ spike_hi < s →
  ∃ fig n k h1 h2,
    update_graph to_datetime forecast_choice anomaly_method event_toggle
      start_date end_date h
    = Some ((fig, summary_div event_toggle start_date end_date n k (fail_pct_of k n)),
            h1) ∧
    update_graph to_datetime forecast_choice anomaly_method event_toggle'
      start_date end_date h
    = Some ((fig, summary_div event_toggle' start_date end_date n k (fail_pct_of k n)),
            h2).
Proof.
  intros Hl Hs He Hclear.
  destruct (update_graph_run _ to_datetime_spike_lo to_datetime_spike_hi
              forecast_choice anomaly_method event_toggle _ _ _ _ _ _ _ _ Hl Hs He)
    as [tmp Hrun].
  destruct (update_graph_run _ to_datetime_spike_lo to_datetime_spike_hi
              forecast_choice anomaly_method event_toggle' _ _ _ _ _ _ _ _ Hl Hs He)
    as [tmp' Hrun'].
  cbn zeta in Hrun, Hrun'.
  assert (Hout : Forall (λ p, ¬ between spike_lo spike_hi (obs_date p))
                   (filter (λ p, between s e (obs_date p)) observed)).
  { apply Forall_forall. intros p [Hp _]%list_elem_of_filter.
    unfold between in *. lia. }
  rewrite (spiked_series_outside event_toggle _ Hout) in Hrun.
  rewrite (spiked_series_outside event_toggle' _ Hout) in Hrun'.
  eexists _, _, _, _, _. split; [exact Hrun|exact Hrun'].
Qed.

(** X4, nothing is plotted outside the selection: every trace of the figure,
    observed, anomaly or forecast, has as many y values as x values, and each
    of its x values is a date within the selected bounds. *)
Theorem plotted_points_within_range (forecast_choice anomaly_method : string)
    (event_toggle : list string) (start_date end_date : string) (s e : Timestamp)
    (observed : list ObservedPoint) (anomalies : list AnomalyPoint)
    (forecasts : list ForecastPoint) (h : Heap) :
  loaded h observed anomalies forecasts →
  to_datetime start_date = Some s → to_datetime end_date = Some e →
  ∃ fig summary h',
    update_graph to_datetime forecast_choice anomaly_method event_toggle
      start_date end_date h = Some ((fig, summary), h') ∧
    ∀ t, t ∈ go.data fig →
         length (go.x t) = length (go.y t) ∧ ∀ d, d ∈ go.x t → s ≤ d ≤ e.
Proof.
  intros Hl Hs He.
  destruct (update_graph_run _ to_datetime_spike_lo to_datetime_spike_hi
              forecast_choice anomaly_method event_toggle _ _ _ _ _ _ _ _ Hl Hs He)
    as [tmp Hrun].
  do 3 eexists. split; [exact Hrun|]. cbn [go.data].
  assert (Hin : ∀ (A : Type) (date : A → Timestamp) (rows : list A) d,
            d ∈ date <$> filter (λ p, between s e (date p)) rows → s ≤ d ≤ e).
  { intros A date rows d (p & -> & [Hp _]%list_elem_of_filter)%list_elem_of_fmap.
    exact Hp. }
  intros t [->|[Ht|Ht]%elem_of_app]%elem_of_cons.
  - cbn. rewrite spiked_series_dates. split; [|apply Hin].
    by rewrite !length_fmap, spiked_series_length.
  - unfold anomaly_layers in Ht. destruct (decide (anomaly_method = "ml")).
    + apply list_elem_of_singleton in Ht as ->. cbn. split; [by rewrite !length_fmap|].
      intros d (p & -> & [[_ Hp] _]%list_elem_of_filter)%list_elem_of_fmap.
      exact Hp.
    + by apply elem_of_nil in Ht.
  - unfold forecast_layers in Ht. destruct (decide (forecast_choice = "arima")).
    + cbn zeta in Ht. rewrite !elem_of_cons in Ht.
      destruct Ht as [->|[->|[->|Ht]]]; [| | |by apply elem_of_nil in Ht];
        cbn; (split; [by rewrite !length_fmap|apply Hin]).
    + by apply elem_of_nil in Ht.
Qed.

(** X5, the summary counts what the chart shows: the record count of the
    summary is the number of points of the observed trace, its high-failure
    count is the number of those points plotted above 3, and
    0 <= k <= n <= len(latam_df). *)
Theorem summary_counts_plotted_points (forecast_choice anomaly_method : string)
    (event_toggle : list string) (start_date end_date : string) (s e : Timestamp)
    (observed : list ObservedPoint) (anomalies : list AnomalyPoint)
    (forecasts : list ForecastPoint) (h : Heap) :
  loaded h observed anomalies forecasts →
  to_datetime start_date = Some s → to_datetime end_date = Some e →
  ∃ fig h' t rest n k,
    update_graph to_datetime forecast_choice anomaly_method event_toggle
      start_date end_date h
    = Some ((fig, summary_div event_toggle start_date end_date n k (fail_pct_of k n)),
            h') ∧
    go.data fig = t :: rest ∧
    n = Z.of_nat (length (go.y t)) ∧
    k = Z.of_nat (length (filter (λ v, PrimFloat.ltb 3 v = true) (go.y t))) ∧
    0 ≤ k ≤ n ∧ n ≤ Z.of_nat (length observed).
Proof.
  intros Hl Hs He.
  destruct (update_graph_run _ to_datetime_spike_lo to_datetime_spike_hi
              forecast_choice anomaly_method event_toggle _ _ _ _ _ _ _ _ Hl Hs He)
    as [tmp Hrun].
  cbn zeta in Hrun. eexists _, _, (observed_layer _), _, _, _.
  split; [exact Hrun|]. split; [done|]. cbn [go.y observed_layer].
  split; [by rewrite length_fmap|]. split; [by rewrite high_failure_count|].
  split.
  - pose proof (length_filter high_failure
                  (spiked_series event_toggle
                     (filter (λ p, between s e (obs_date p)) observed))). lia.
  - rewrite spiked_series_length.
    pose proof (length_filter (λ p, between s e (obs_date p)) observed). lia.
Qed.

(** X6, the bounds of the date picker: building the picker leaves the heap as
    it is; its initial range is its allowed range; on an empty dataset all
    four dates are NaT; otherwise the two bounds are dates of the dataset and
    every date of the dataset lies between them. *)
Theorem date_picker_bounds (observed : list ObservedPoint) (h : Heap) :
  h !! latam_df = Some (ObservedFrame observed) →
  ∃ dp,
    date_picker h = Some (dp, h) ∧
    dcc.start_date dp = dcc.min_date_allowed dp ∧
    dcc.end_date dp = dcc.max_date_allowed dp ∧
    (observed = [] → dcc.start_date dp = None ∧ dcc.end_date dp = None) ∧
    (observed ≠ [] →
     ∃ lo hi, dcc.start_date dp = Some lo ∧ dcc.end_date dp = Some hi ∧
              (∃ p, p ∈ observed ∧ obs_date p = lo) ∧
              (∃ p, p ∈ observed ∧ obs_date p = hi) ∧
              ∀ p, p ∈ observed → lo ≤ obs_date p ≤ hi).
Proof.
  intros Hobs. eexists. split; [by apply date_picker_run|]. cbn.
  split; [done|]. split; [done|].
  split; [by intros ->|]. intros Hne.
  destruct observed as [|p0 rest]; [done|].
  destruct (Series_min (obs_date <$> p0 :: rest)) as [lo|] eqn:Hlo; [|done].
  destruct (Series_max (obs_date <$> p0 :: rest)) as [hi|] eqn:Hhi; [|done].
  apply Series_min_spec in Hlo as [Hlo_in Hlo].
  apply Series_max_spec in Hhi as [Hhi_in Hhi].
  exists lo, hi. split; [done|]. split; [done|].
  apply list_elem_of_fmap in Hlo_in as (pl & -> & Hpl).
  apply list_elem_of_fmap in Hhi_in as (ph & -> & Hph).
  split; [by exists pl|]. split; [by exists ph|].
  intros p Hp. rewrite Forall_fmap, Forall_forall in Hlo, Hhi.
  split; [by apply Hlo|by apply Hhi].
Qed.

(** X7, the initial range shows everything: when the start and end dates
    convert to the initial range of the date picker, the observed trace has
    one point for each row of the dataset, in order, at the dates of the
    dataset, and the summary counts every row. *)
Theorem default_range_selects_everything (forecast_choice anomaly_method : string)
    (event_toggle : list string) (start_date end_date : string)
    (observed : list ObservedPoint) (anomalies : list AnomalyPoint)
    (forecasts : list ForecastPoint) (h : Heap) (dp : dcc.DatePickerRange) :
  loaded h observed anomalies forecasts →
  date_picker h = Some (dp, h) →
  to_datetime start_date = dcc.start_date dp →
  to_datetime end_date = dcc.end_date dp →
  observed ≠ [] →
  ∃ fig h' t rest k,
    update_graph to_datetime forecast_choice anomaly_method event_toggle
      start_date end_date h
    = Some ((fig,
             summary_div event_toggle start_date end_date
               (Z.of_nat (length observed)) k
               (fail_pct_of k (Z.of_nat (length observed)))), h') ∧
    go.data fig = t :: rest ∧
    go.x t = obs_date <$> observed ∧
    length (go.y t) = length observed.
Proof.
  intros Hl Hdp Hs He Hne.
  pose proof Hl as (Hobs & _ & _).
  rewrite (date_picker_run _ _ Hobs) in Hdp. injection Hdp as <-. cbn in Hs, He.
  destruct observed as [|p0 rest]; [done|].
  destruct (Series_min (obs_date <$> p0 :: rest)) as [lo|] eqn:Hlo; [|done].
  destruct (Series_max (obs_date <$> p0 :: rest)) as [hi|] eqn:Hhi; [|done].
  apply Series_min_spec in Hlo as [_ Hlo]. apply Series_max_spec in Hhi as [_ Hhi].
  rewrite Forall_fmap in Hlo, Hhi.
  destruct (update_graph_run _ to_datetime_spike_lo to_datetime_spike_hi
              forecast_choice anomaly_method event_toggle _ _ _ _ _ _ _ _ Hl Hs He)
    as [tmp Hrun].
  cbn zeta in Hrun. rewrite filter_all in Hrun.
  2:{ rewrite Forall_forall in *. intros p Hp. split; [by apply Hlo|by apply Hhi]. }
  eexists _, _, (observed_layer _), _, _. split.
  { rewrite Hrun. unfold summary_of. by rewrite spiked_series_length. }
  split; [done|]. cbn [go.x go.y observed_layer].
  split; [apply spiked_series_dates|].
  by rewrite length_fmap, spiked_series_length.
Qed.

(** X8, only "bf" is read from the checklist: two selections that agree on
    whether "bf" is selected give the same figure and the same summary. *)
Theorem event_toggle_only_bf (forecast_choice anomaly_method : string)
    (event_toggle event_toggle' : list string) (start_date end_date : string)
    (s e : Timestamp) (observed : list ObservedPoint) (anomalies : list AnomalyPoint)
    (forecasts : list ForecastPoint) (h : Heap) :
  loaded h observed anomalies forecasts →
  to_datetime start_date = Some s → to_datetime end_date = Some e →
  ("bf" ∈ event_toggle ↔ "bf" ∈ event_toggle') →
  ∃ fig summary h1 h2,
    update_graph to_datetime forecast_choice anomaly_method event_toggle
      start_date end_date h = Some ((fig, summary), h1) ∧
    update_graph to_datetime forecast_choice anomaly_method event_toggle'
      start_date end_date h = Some ((fig, summary), h2).
Proof.
  intros Hl Hs He Hbf.
  destruct (update_graph_run _ to_datetime_spike_lo to_datetime_spike_hi
              forecast_choice anomaly_method event_toggle _ _ _ _ _ _ _ _ Hl Hs He)
    as [tmp Hrun].
  destruct (update_graph_run _ to_datetime_spike_lo to_datetime_spike_hi
              forecast_choice anomaly_method event_toggle' _ _ _ _ _ _ _ _ Hl Hs He)
    as [tmp' Hrun'].
  cbn zeta in Hrun, Hrun'.
  rewrite <- (spiked_series_congr _ _ _ Hbf) in Hrun'.
  unfold summary_of in Hrun'. rewrite <- (summary_div_congr _ _ _ _ _ _ _ Hbf) in Hrun'.
  eexists _, _, _, _. split; [exact Hrun|exact Hrun'].
Qed.

(** X9, the observed trace does not depend on the overlays: two calls that
    differ only in the forecast overlay and the anomaly method plot the same
    observed trace, first in both figures. *)
Theorem observed_trace_ignores_overlays (forecast_choice anomaly_method : string)
    (forecast_choice' anomaly_method' : string)
    (event_toggle : list string) (start_date end_date : string) (s e : Timestamp)
    (observed : list ObservedPoint) (anomalies : list AnomalyPoint)
    (forecasts : list ForecastPoint) (h : Heap) :
  loaded h observed anomalies forecasts →
  to_datetime start_date = Some s → to_datetime end_date = Some e →
  ∃ t fig summary h1 rest fig' summary' h2 rest',
    update_graph to_datetime forecast_choice anomaly_method event_toggle
      start_date end_date h = Some ((fig, summary), h1) ∧
    update_graph to_datetime forecast_choice' anomaly_method' event_toggle
      start_date end_date h = Some ((fig', summary'), h2) ∧
    go.data fig = t :: rest ∧ go.data fig' = t :: rest' ∧
    go.name t = Some "Failure %" ∧
    (∀ t', t' ∈ rest ++ rest' → go.name t' ≠ Some "Failure %").
Proof.
  intros Hl Hs He.
  destruct (update_graph_run _ to_datetime_spike_lo to_datetime_spike_hi
              forecast_choice anomaly_method event_toggle _ _ _ _ _ _ _ _ Hl Hs He)
    as [tmp Hrun].
  destruct (update_graph_run _ to_datetime_spike_lo to_datetime_spike_hi
              forecast_choice' anomaly_method' event_toggle _ _ _ _ _ _ _ _ Hl Hs He)
    as [tmp' Hrun'].
  eexists (observed_layer _), _, _, _, _, _, _, _, _.
  split; [exact Hrun|]. split; [exact Hrun'|]. do 3 (split; [done|]).
  assert (Hother : ∀ fc am t',
            t' ∈ anomaly_layers am s e anomalies ++ forecast_layers fc s e forecasts →
            go.name t' ≠ Some "Failure %").
  { intros fc am t' [Ht|Ht]%elem_of_app.
    - unfold anomaly_layers in Ht. destruct (decide (am = "ml")).
      + by apply list_elem_of_singleton in Ht as ->.
      + by apply elem_of_nil in Ht.
    - unfold forecast_layers in Ht. destruct (decide (fc = "arima")).
      + cbn zeta in Ht. rewrite !elem_of_cons in Ht.
        by destruct Ht as [->|[->|[->|Ht%elem_of_nil]]].
      + by apply elem_of_nil in Ht. }
  intros t' [Ht|Ht]%elem_of_app; by eapply Hother.
Qed.

(** X10, the forecast band does not depend on the spike or on the anomaly
    method: two calls with the overlay "arima" that differ only in the spike
    toggle and the anomaly method end their figures with the same three
    forecast layers. *)
Theorem forecast_band_ignores_spike_and_anomalies (anomaly_method anomaly_method' : string)
    (event_toggle event_toggle' : list string) (start_date end_date : string)
    (s e : Timestamp) (observed : list ObservedPoint) (anomalies : list AnomalyPoint)
    (forecasts : list ForecastPoint) (h : Heap) :
  loaded h observed anomalies forecasts →
  to_datetime start_date = Some s → to_datetime end_date = Some e →
  ∃ central up low fig summary h1 first fig' summary' h2 first',
    update_graph to_datetime "arima" anomaly_method event_toggle
      start_date end_date h = Some ((fig, summary), h1) ∧
    update_graph to_datetime "arima" anomaly_method' event_toggle'
      start_date end_date h = Some ((fig', summary'), h2) ∧
    go.data fig = first :: ml_overlay fig ++ [central; up; low] ∧
    go.data fig' = first' :: ml_overlay fig' ++ [central; up; low] ∧
    go.x central = go.x up ∧ go.x up = go.x low.
Proof.
  intros Hl Hs He.
  destruct (update_graph_run _ to_datetime_spike_lo to_datetime_spike_hi
              "arima" anomaly_method event_toggle _ _ _ _ _ _ _ _ Hl Hs He)
    as [tmp Hrun].
  destruct (update_graph_run _ to_datetime_spike_lo to_datetime_spike_hi
              "arima" anomaly_method' event_toggle' _ _ _ _ _ _ _ _ Hl Hs He)
    as [tmp' Hrun'].
  eexists (central_layer _), (upper_layer _), (lower_layer _),
    _, _, _, (observed_layer _), _, _, _, (observed_layer _).
  split; [exact Hrun|]. split; [exact Hrun'|].
  rewrite !ml_overlay_layers. by repeat split.
Qed.

End Extras.


Lemma overlays_off_ignore_datasets_witness :
  (iso_to_datetime "2025-01-25" = Some spike_lo ∧
   iso_to_datetime "2025-01-28" = Some spike_hi ∧
   sample_heap !! latam_df = Some (ObservedFrame sample_observed) ∧
   [ObservedFrame sample_observed] !! latam_df = Some (ObservedFrame sample_observed) ∧
   iso_to_datetime "2025-01-01" = Some (midnight 2025 1 1) ∧
   iso_to_datetime "2025-01-31" = Some (midnight 2025 1 31) ∧
   "none" ≠ "ml" ∧ "none" ≠ "arima") ∧
  ∃ fig summary h1' h2' t,
    update_graph iso_to_datetime "none" "none" ["bf"] "2025-01-01" "2025-01-31"
      sample_heap = Some ((fig, summary), h1') ∧
    update_graph iso_to_datetime "none" "none" ["bf"] "2025-01-01" "2025-01-31"
      [ObservedFrame sample_observed] = Some ((fig, summary), h2') ∧
    go.data fig = [t].
Proof.
  split; [by repeat split|].
  apply (overlays_off_ignore_datasets iso_to_datetime eq_refl eq_refl "none" "none"
           ["bf"] "2025-01-01" "2025-01-31" _ _ sample_observed sample_heap
           [ObservedFrame sample_observed] eq_refl eq_refl eq_refl eq_refl);
    discriminate.
Defined.

Lemma spike_outside_range_invisible_witness :
  (iso_to_datetime "2025-01-25" = Some spike_lo ∧
   iso_to_datetime "2025-01-28" = Some spike_hi ∧
   loaded sample_heap sample_observed sample_anomalies sample_forecasts ∧
   iso_to_datetime "2025-01-01" = Some (midnight 2025 1 1) ∧
   iso_to_datetime "2025-01-24" = Some (midnight 2025 1 24) ∧
   (midnight 2025 1 24 < spike_lo ∨ spike_hi < midnight 2025 1 1)) ∧
  ∃ fig n k h1 h2,
    update_graph iso_to_datetime "arima" "ml" ["bf"] "2025-01-01" "2025-01-24" sample_heap
    = Some ((fig, summary_div ["bf"] "2025-01-01" "2025-01-24" n k (fail_pct_of k n)),
            h1) ∧
    update_graph iso_to_datetime "arima" "ml" [] "2025-01-01" "2025-01-24" sample_heap
    = Some ((fig, summary_div [] "2025-01-01" "2025-01-24" n k (fail_pct_of k n)),
            h2).
Proof.
  split; [repeat split; by left|].
  apply (spike_outside_range_invisible iso_to_datetime eq_refl eq_refl "arima" "ml"
           ["bf"] [] "2025-01-01" "2025-01-24" _ _ sample_observed sample_anomalies
           sample_forecasts sample_heap (conj eq_refl (conj eq_refl eq_refl))
           eq_refl eq_refl (or_introl eq_refl)).
Defined.

Lemma plotted_points_within_range_witness :
  (iso_to_datetime "2025-01-25" = Some spike_lo ∧
   iso_to_datetime "2025-01-28" = Some spike_hi ∧
   loaded sample_heap sample_observed sample_anomalies sample_forecasts ∧
   iso_to_datetime "2025-01-25" = Some (midnight 2025 1 25) ∧
   iso_to_datetime "2025-01-31" = Some (midnight 2025 1 31)) ∧
  ∃ fig summary h',
    update_graph iso_to_datetime "arima" "ml" ["bf"] "2025-01-25" "2025-01-31" sample_heap
    = Some ((fig, summary), h') ∧
    ∀ t, t ∈ go.data fig →
         length (go.x t) = length (go.y t) ∧
         ∀ d, d ∈ go.x t → midnight 2025 1 25 ≤ d ≤ midnight 2025 1 31.
Proof.
  split; [by repeat split|].
  apply (plotted_points_within_range iso_to_datetime eq_refl eq_refl "arima" "ml"
           ["bf"] "2025-01-25" "2025-01-31" _ _ sample_observed sample_anomalies
           sample_forecasts sample_heap (conj eq_refl (conj eq_refl eq_refl))
           eq_refl eq_refl).
Defined.

Lemma summary_counts_plotted_points_witness :
  (iso_to_datetime "2025-01-25" = Some spike_lo ∧
   iso_to_datetime "2025-01-28" = Some spike_hi ∧
   loaded sample_heap sample_observed sample_anomalies sample_forecasts ∧
   iso_to_datetime "2025-01-01" = Some (midnight 2025 1 1) ∧
   iso_to_datetime "2025-01-31" = Some (midnight 2025 1 31)) ∧
  ∃ fig h' t rest n k,
    update_graph iso_to_datetime "arima" "ml" ["bf"] "2025-01-01" "2025-01-31" sample_heap
    = Some ((fig, summary_div ["bf"] "2025-01-01" "2025-01-31" n k (fail_pct_of k n)),
            h') ∧
    go.data fig = t :: rest ∧
    n = Z.of_nat (length (go.y t)) ∧
    k = Z.of_nat (length (filter (λ v, PrimFloat.ltb 3 v = true) (go.y t))) ∧
    0 ≤ k ≤ n ∧ n ≤ Z.of_nat (length sample_observed).
Proof.
  split; [by repeat split|].
  apply (summary_counts_plotted_points iso_to_datetime eq_refl eq_refl "arima" "ml"
           ["bf"] "2025-01-01" "2025-01-31" _ _ sample_observed sample_anomalies
           sample_forecasts sample_heap (conj eq_refl (conj eq_refl eq_refl))
           eq_refl eq_refl).
Defined.

Lemma date_picker_bounds_witness :
  sample_heap !! latam_df = Some (ObservedFrame sample_observed) ∧
  ∃ dp,
    date_picker sample_heap = Some (dp, sample_heap) ∧
    dcc.start_date dp = dcc.min_date_allowed dp ∧
    dcc.end_date dp = dcc.max_date_allowed dp ∧
    (sample_observed = [] → dcc.start_date dp = None ∧ dcc.end_date dp = None) ∧
    (sample_observed ≠ [] →
     ∃ lo hi, dcc.start_date dp = Some lo ∧ dcc.end_date dp = Some hi ∧
              (∃ p, p ∈ sample_observed ∧ obs_date p = lo) ∧
              (∃ p, p ∈ sample_observed ∧ obs_date p = hi) ∧
              ∀ p, p ∈ sample_observed → lo ≤ obs_date p ≤ hi).
Proof.
  split; [reflexivity|].
  apply (date_picker_bounds sample_observed sample_heap eq_refl).
Defined.

Lemma default_range_selects_everything_witness :
  (iso_to_datetime "2025-01-25" = Some spike_lo ∧
   iso_to_datetime "2025-01-28" = Some spike_hi ∧
   loaded sample_heap sample_observed sample_anomalies sample_forecasts ∧
   date_picker sample_heap
   = Some (dcc.mkDatePickerRange
             (Some (midnight 2025 1 24)) (Some (midnight 2025 1 29))
             (Some (midnight 2025 1 24)) (Some (midnight 2025 1 29)), sample_heap) ∧
   iso_to_datetime "2025-01-24" = Some (midnight 2025 1 24) ∧
   iso_to_datetime "2025-01-29" = Some (midnight 2025 1 29) ∧
   sample_observed ≠ []) ∧
  ∃ fig h' t rest k,
    update_graph iso_to_datetime "arima" "ml" [] "2025-01-24" "2025-01-29" sample_heap
    = Some ((fig,
             summary_div [] "2025-01-24" "2025-01-29"
               (Z.of_nat (length sample_observed)) k
               (fail_pct_of k (Z.of_nat (length sample_observed)))), h') ∧
    go.data fig = t :: rest ∧
    go.x t = obs_date <$> sample_observed ∧
    length (go.y t) = length sample_observed.
Proof.
  split; [by repeat split|].
  apply (default_range_selects_everything iso_to_datetime eq_refl eq_refl "arima" "ml"
           [] "2025-01-24" "2025-01-29" sample_observed sample_anomalies
           sample_forecasts sample_heap
           (dcc.mkDatePickerRange
              (Some (midnight 2025 1 24)) (Some (midnight 2025 1 29))
              (Some (midnight 2025 1 24)) (Some (midnight 2025 1 29)))
           (conj eq_refl (conj eq_refl eq_refl)) eq_refl eq_refl eq_refl).
  discriminate.
Defined.

Lemma event_toggle_only_bf_witness :
  (iso_to_datetime "2025-01-25" = Some spike_lo ∧
   iso_to_datetime "2025-01-28" = Some spike_hi ∧
   loaded sample_heap sample_observed sample_anomalies sample_forecasts ∧
   iso_to_datetime "2025-01-01" = Some (midnight 2025 1 1) ∧
   iso_to_datetime "2025-01-31" = Some (midnight 2025 1 31) ∧
   ("bf" ∈ ["bf"] ↔ "bf" ∈ ["other"; "bf"; "bf"])) ∧
  ∃ fig summary h1 h2,
    update_graph iso_to_datetime "arima" "ml" ["bf"] "2025-01-01" "2025-01-31"
      sample_heap = Some ((fig, summary), h1) ∧
    update_graph iso_to_datetime "arima" "ml" ["other"; "bf"; "bf"]
      "2025-01-01" "2025-01-31" sample_heap = Some ((fig, summary), h2).
Proof.
  assert (Hbf : "bf" ∈ ["bf"] ↔ "bf" ∈ ["other"; "bf"; "bf"])
    by (split; intros _; rewrite !elem_of_cons; tauto).
  split; [repeat (split; [done|]); exact Hbf|].
  apply (event_toggle_only_bf iso_to_datetime eq_refl eq_refl "arima" "ml"
           ["bf"] ["other"; "bf"; "bf"] "2025-01-01" "2025-01-31" _ _ sample_observed
           sample_anomalies sample_forecasts sample_heap
           (conj eq_refl (conj eq_refl eq_refl)) eq_refl eq_refl Hbf).
Defined.

Lemma observed_trace_ignores_overlays_witness :
  (iso_to_datetime "2025-01-25" = Some spike_lo ∧
   iso_to_datetime "2025-01-28" = Some spike_hi ∧
   loaded sample_heap sample_observed sample_anomalies sample_forecasts ∧
   iso_to_datetime "2025-01-01" = Some (midnight 2025 1 1) ∧
   iso_to_datetime "2025-01-31" = Some (midnight 2025 1 31)) ∧
  ∃ t fig summary h1 rest fig' summary' h2 rest',
    update_graph iso_to_datetime "arima" "ml" ["bf"] "2025-01-01" "2025-01-31"
      sample_heap = Some ((fig, summary), h1) ∧
    update_graph iso_to_datetime "none" "none" ["bf"] "2025-01-01" "2025-01-31"
      sample_heap = Some ((fig', summary'), h2) ∧
    go.data fig = t :: rest ∧ go.data fig' = t :: rest' ∧
    go.name t = Some "Failure %" ∧
    (∀ t', t' ∈ rest ++ rest' → go.name t' ≠ Some "Failure %").
Proof.
  split; [by repeat split|].
  apply (observed_trace_ignores_overlays iso_to_datetime eq_refl eq_refl "arima" "ml"
           "none" "none" ["bf"] "2025-01-01" "2025-01-31" _ _ sample_observed
           sample_anomalies sample_forecasts sample_heap
           (conj eq_refl (conj eq_refl eq_refl)) eq_refl eq_refl).
Defined.

Lemma forecast_band_ignores_spike_and_anomalies_witness :
  (iso_to_datetime "2025-01-25" = Some spike_lo ∧
   iso_to_datetime "2025-01-28" = Some spike_hi ∧
   loaded sample_heap sample_observed sample_anomalies sample_forecasts ∧
   iso_to_datetime "2025-01-01" = Some (midnight 2025 1 1) ∧
   iso_to_datetime "2025-01-31" = Some (midnight 2025 1 31)) ∧
  ∃ central up low fig summary h1 first fig' summary' h2 first',
    update_graph iso_to_datetime "arima" "ml" ["bf"] "2025-01-01" "2025-01-31"
      sample_heap = Some ((fig, summary), h1) ∧
    update_graph iso_to_datetime "arima" "none" [] "2025-01-01" "2025-01-31"
      sample_heap = Some ((fig', summary'), h2) ∧
    go.data fig = first :: ml_overlay fig ++ [central; up; low] ∧
    go.data fig' = first' :: ml_overlay fig' ++ [central; up; low] ∧
    go.x central = go.x up ∧ go.x up = go.x low.
Proof.
  split; [by repeat split|].
  apply (forecast_band_ignores_spike_and_anomalies iso_to_datetime eq_refl eq_refl
           "ml" "none" ["bf"] [] "2025-01-01" "2025-01-31" _ _ sample_observed
           sample_anomalies sample_forecasts sample_heap
           (conj eq_refl (conj eq_refl eq_refl)) eq_refl eq_refl).
Defined.
